(** * BeverageStock: a shallow embedding of [beverage_stock.py]

    The Python module has three classes: [Produto] (a mutable record),
    [CalculadoraCusto] (three static numeric functions on [float] and [int])
    and [Estoque] (a list of references to [Produto] objects, with stock-in,
    stock-out, alert and report methods).

    - Python [int] is unbounded: it is [Z].
    - Python [float] is IEEE-754 binary64: it is [spec_float] with the
      operations of [SpecFloat] at precision 53 and exponent bound 1024.
    - Python [str] is a [string] holding the UTF-8 bytes of the text.
    - Objects live in a heap ([gmap loc Produto]); the ledger's list holds
      locations, so that one object registered twice is one object.
    - [raise] and [print] are effects of a small state-and-exception monad. *)

From Stdlib Require Import ZArith QArith Lia Bool.
From Stdlib Require Import Floats.SpecFloat.
From stdpp Require Import base gmap strings list fin_maps pretty.

Local Open Scope string_scope.
Local Open Scope Z_scope.

(* ===================================================================== *)
(** ** Python exceptions and results *)
(* ===================================================================== *)

Module Py.

(** The exception classes the module can raise, with their message. *)
Inductive exn : Type :=
  | ValueError (msg : string)
  | OverflowError (msg : string)
  | ZeroDivisionError (msg : string).

(** The result of evaluating an expression or a call. *)
Inductive outcome (A : Type) : Type :=
  | Return (a : A)
  | Raise (e : exn).
Arguments Return {A} a.
Arguments Raise {A} e.

Definition bind {A B} (m : outcome A) (k : A -> outcome B) : outcome B :=
  match m with
  | Return a => k a
  | Raise e => Raise e
  end.

Definition returns {A} (m : outcome A) : bool :=
  match m with Return _ => true | Raise _ => false end.

End Py.
Export Py.

Declare Scope py_scope.
Delimit Scope py_scope with py.
Notation "'let*' x ':=' m 'in' k" := (Py.bind m (fun x => k))
  (at level 10, x name, m at level 100, k at level 200) : py_scope.
Local Open Scope py_scope.

(* ===================================================================== *)
(** ** Python floats (binary64) *)
(* ===================================================================== *)

Module PyFloat.

Definition prec : Z := 53.
Definition emax : Z := 1024.

Definition float : Type := spec_float.

Definition mul : float -> float -> float := SFmul prec emax.
Definition add : float -> float -> float := SFadd prec emax.
Definition div : float -> float -> float := SFdiv prec emax.
Definition sqrt : float -> float := SFsqrt prec emax.

(** The binary64 number nearest to the integer [n] (ties to even),
  an infinity when that is out of range. *)
Definition round_int (n : Z) : float := binary_normalize prec emax n 0 false.

(** [float(n)] for an [int] operand of a mixed operation: correctly
  rounded, [OverflowError] when the rounded value is out of range. *)
Definition of_int (n : Z) : outcome float :=
  match round_int n with
  | S754_infinity _ => Raise (OverflowError "int too large to convert to float")
  | x => Return x
  end.

(** [x == 0] with [x] a float and [0] the int literal. *)
Definition eq_zero (x : float) : bool := SFeqb x (S754_zero false).

(** [x / y] on floats. *)
Definition truediv (x y : float) : outcome float :=
  if eq_zero y then Raise (ZeroDivisionError "float division by zero")
  else Return (div x y).

(** [math.sqrt]. *)
Definition math_sqrt (x : float) : outcome float :=
  match x with
  | S754_finite true _ _ | S754_infinity true => Raise (ValueError "math domain error")
  | _ => Return (sqrt x)
  end.

(** Ceiling of [a / b] for [0 < b]. *)
Definition ceil_div (a b : Z) : Z := - ((- a) / b).

(** [math.ceil]: the exact integer ceiling of a finite float. *)
Definition math_ceil (x : float) : outcome Z :=
  match x with
  | S754_nan => Raise (ValueError "cannot convert float NaN to integer")
  | S754_infinity _ => Raise (OverflowError "cannot convert float infinity to integer")
  | S754_zero _ => Return 0
  | S754_finite s m e =>
      Return (match e with
              | Zneg k => ceil_div (cond_Zopp s (Zpos m)) (Zpos (2 ^ k))
              | _ => cond_Zopp s (Zpos m) * 2 ^ e
              end)
  end.

(** The rational number a finite float stands for (0 for the others). *)
Definition to_Q (x : float) : Q :=
  match x with
  | S754_finite s m e =>
      match e with
      | Zneg k => Qmake (cond_Zopp s (Zpos m)) (2 ^ k)
      | _ => inject_Z (cond_Zopp s (Zpos m) * 2 ^ e)
      end
  | _ => 0%Q
  end.

Definition is_finite (x : float) : bool :=
  match x with
  | S754_zero _ | S754_finite _ _ _ => true
  | _ => false
  end.

(** [0 <= x] on floats (true for both zeros and for +inf). *)
Definition nonneg (x : float) : bool := SFleb (S754_zero false) x.

(** [0 < x] on floats. *)
Definition pos (x : float) : bool := SFltb (S754_zero false) x.

(** Not below zero: a zero of either sign, a positive number, +inf or NaN. *)
Definition not_negative (x : float) : bool :=
  match x with
  | S754_finite true _ _ | S754_infinity true => false
  | _ => true
  end.

(** [r] is the ceiling of the rational [q]. *)
Definition is_ceiling (r : Z) (q : Q) : Prop :=
  (q <= inject_Z r)%Q /\ (inject_Z r < q + 1)%Q.

(** 2.0 ** 1023, the largest power of two among the binary64 numbers. *)
Definition two_1023 : float := S754_finite false 4503599627370496 971.

End PyFloat.

(* ===================================================================== *)
(** ** class CalculadoraCusto *)
(* ===================================================================== *)

Module CalculadoraCusto.
Import PyFloat.

(** [math.ceil(desvio_padrao * dias_seguranca * demanda_media_diaria)] *)
Definition calcular_estoque_seguranca
    (desvio_padrao : float) (dias_seguranca : Z) (demanda_media_diaria : float)
  : outcome Z :=
  let* dias := of_int dias_seguranca in
  let estoque_seguranca := mul (mul desvio_padrao dias) demanda_media_diaria in
  math_ceil estoque_seguranca.

(** [math.ceil((lead_time_dias * demanda_media_diaria) + estoque_seguranca)] *)
Definition determinar_ponto_pedido
    (lead_time_dias : Z) (demanda_media_diaria : float) (estoque_seguranca : Z)
  : outcome Z :=
  let* lead := of_int lead_time_dias in
  let produto := mul lead demanda_media_diaria in
  let* seg := of_int estoque_seguranca in
  let ponto_pedido := add produto seg in
  math_ceil ponto_pedido.

Definition calcular_lote_economico
    (demanda_anual custo_pedido custo_manutencao : float) : outcome Z :=
  if eq_zero custo_manutencao then
    Raise (ValueError "Custo de manutenção não pode ser zero")
  else
    let* two := of_int 2 in
    let* quociente := truediv (mul (mul two demanda_anual) custo_pedido) custo_manutencao in
    let* eoq := math_sqrt quociente in
    math_ceil eoq.

(** The float that [calcular_estoque_seguranca] hands to [math.ceil]. *)
Definition estoque_seguranca_float (desvio_padrao : float) (dias_seguranca : Z)
  (demanda_media_diaria : float) : float :=
  mul (mul desvio_padrao (round_int dias_seguranca)) demanda_media_diaria.

(** The float that [determinar_ponto_pedido] hands to [math.ceil]. *)
Definition ponto_pedido_float (lead_time_dias : Z) (demanda_media_diaria : float)
  (estoque_seguranca : Z) : float :=
  add (mul (round_int lead_time_dias) demanda_media_diaria) (round_int estoque_seguranca).

(** The float that [calcular_lote_economico] hands to [math.ceil]. *)
Definition eoq_float (demanda_anual custo_pedido custo_manutencao : float) : float :=
  sqrt (div (mul (mul (round_int 2) demanda_anual) custo_pedido) custo_manutencao).

End CalculadoraCusto.

(* ===================================================================== *)
(** ** Python strings *)
(* ===================================================================== *)

Module PyStr.

(** The one-character string [\n]. *)
Definition nl : string := String (Ascii.ascii_of_nat 10) EmptyString.

(** [s * n] for a non-negative count. *)
Fixpoint repeat (s : string) (n : nat) : string :=
  match n with
  | O => ""
  | S n' => s +:+ repeat s n'
  end.

(** [str(n)] and [f"{n}"] for an int. *)
Definition of_int (n : Z) : string := pretty n.

End PyStr.

(* ===================================================================== *)
(** ** class TipoBebida(Enum) *)
(* ===================================================================== *)

Inductive TipoBebida : Type :=
| CERVEJA
| REFRIGERANTE.

Definition TipoBebida_value (t : TipoBebida) : Z :=
  match t with
  | CERVEJA => 1
  | REFRIGERANTE => 2
  end.

Definition TipoBebida_name (t : TipoBebida) : string :=
  match t with
  | CERVEJA => "CERVEJA"
  | REFRIGERANTE => "REFRIGERANTE"
  end.

(* ===================================================================== *)
(** ** class Produto *)
(* ===================================================================== *)

Module Produto.

(** The attributes of a [Produto] object. *)
Record t : Type := mk {
  nome : string;
  tipo : TipoBebida;
  custo_manutencao : PyFloat.float;
  custo_pedido : PyFloat.float;
  preco_unitario : PyFloat.float;
  quantidade_estoque : Z
  }.

(** [Produto.__init__]: the five arguments are stored, the stock is 0. *)
Definition __init__ (nome : string) (tipo : TipoBebida)
    (custo_manutencao custo_pedido preco_unitario : PyFloat.float) : t :=
  {| nome := nome;
     tipo := tipo;
     custo_manutencao := custo_manutencao;
     custo_pedido := custo_pedido;
     preco_unitario := preco_unitario;
     quantidade_estoque := 0 |}.

(** Assignment to the attribute [quantidade_estoque]. *)
Definition set_quantidade_estoque (p : t) (q : Z) : t :=
  {| nome := nome p;
     tipo := tipo p;
     custo_manutencao := custo_manutencao p;
     custo_pedido := custo_pedido p;
     preco_unitario := preco_unitario p;
     quantidade_estoque := q |}.

(** [Produto.__str__] *)
Definition __str__ (p : t) : string :=
  nome p +:+ " (" +:+ TipoBebida_name (tipo p) +:+ ") - Estoque: "
    +:+ PyStr.of_int (quantidade_estoque p).

End Produto.

(* ===================================================================== *)
(** ** The object store and the ledger's state *)
(* ===================================================================== *)

(** The identity of a [Produto] object. *)
Definition loc : Type := positive.
Bind Scope positive_scope with loc.

(** The attributes of an [Estoque] object. [produtos] holds references:
    appending an object twice gives two entries for one object. The
    attribute [calculadora] holds a [CalculadoraCusto()], which has no
    attributes. *)
Record Estoque : Type := mkEstoque {
  estoque_nome : string;
  produtos : list loc;
  calculadora : unit
}.

(** What a method of the ledger can see and change: the [Produto] objects,
    the ledger itself ([self]), and the lines written by [print]. *)
Record State : Type := mkState {
  heap : gmap loc Produto.t;
  self : Estoque;
  stdout : list string
}.

(** [Estoque.__init__(nome_estoque)], in a store that holds [h]. *)
Definition Estoque__init__ (h : gmap loc Produto.t) (nome_estoque : string) : State :=
  {| heap := h;
     self := {| estoque_nome := nome_estoque; produtos := []; calculadora := tt |};
     stdout := [] |}.

(* ===================================================================== *)
(** ** The monad of the ledger's methods *)
(* ===================================================================== *)

(** A method runs in a state and either returns or raises, in a new state.
    [None] is for a reference to no object, which Python cannot produce. *)
Definition M (A : Type) : Type := State -> option (outcome A * State).

Module StM.

Definition ret {A} (a : A) : M A := fun s => Some (Return a, s).

Definition raise {A} (e : exn) : M A := fun s => Some (Raise e, s).

Definition bind {A B} (m : M A) (k : A -> M B) : M B :=
  fun s =>
    match m s with
    | Some (Return a, s') => k a s'
    | Some (Raise e, s') => Some (Raise e, s')
    | None => None
    end.

(** [print(line)] *)
Definition print (line : string) : M unit :=
  fun s => Some (Return tt,
                 {| heap := heap s; self := self s; stdout := stdout s ++ [line] |}).

(** Reading the attributes of the object at [l]. *)
Definition deref (l : loc) : M Produto.t :=
  fun s =>
    match heap s !! l with
    | Some p => Some (Return p, s)
    | None => None
    end.

(** [obj.quantidade_estoque = q] for the object at [l]. *)
Definition store_quantidade_estoque (l : loc) (q : Z) : M unit :=
  fun s =>
    match heap s !! l with
    | Some p =>
        Some (Return tt,
              {| heap := <[l := Produto.set_quantidade_estoque p q]> (heap s);
                 self := self s; stdout := stdout s |})
    | None => None
    end.

(** [self.nome] and [self.produtos] *)
Definition get_self : M Estoque := fun s => Some (Return (self s), s).

(** [self.produtos.append(l)] *)
Definition append_produto (l : loc) : M unit :=
  fun s =>
    Some (Return tt,
          {| heap := heap s;
             self := {| estoque_nome := estoque_nome (self s);
                        produtos := produtos (self s) ++ [l];
                        calculadora := calculadora (self s) |};
             stdout := stdout s |}).

End StM.

Declare Scope stm_scope.
Delimit Scope stm_scope with stm.
Notation "'do' x '<-' m ';' k" := (StM.bind m (fun x => k))
  (at level 10, x name, m at level 100, k at level 200) : stm_scope.
Notation "m ';;;' k" := (StM.bind m (fun _ => k))
  (at level 100, k at level 200, right associativity) : stm_scope.
Local Open Scope stm_scope.

(* ===================================================================== *)
(** ** class Estoque *)
(* ===================================================================== *)

Module EstoqueOps.
Import StM.

(** The line of sixty [=] signs, ['='*60]. *)
Definition regua : string := PyStr.repeat "=" 60.

(** The loop of [_buscar_produto] over the remaining entries. *)
Fixpoint buscar_em (nome : string) (entradas : list loc) : M (option loc) :=
  match entradas with
  | [] => ret None
  | l :: resto =>
      do produto <- deref l;
      if String.eqb (Produto.nome produto) nome then ret (Some l)
      else buscar_em nome resto
  end.

(** [Estoque._buscar_produto]: the first entry whose name is [nome]. *)
Definition _buscar_produto (nome : string) : M (option loc) :=
  do este <- get_self;
  buscar_em nome (produtos este).

(** [Estoque.adicionar_produto] *)
Definition adicionar_produto (produto : loc) : M unit :=
  append_produto produto;;;
  do p <- deref produto;
  print ("✓ Produto '" +:+ Produto.nome p +:+ "' adicionado ao estoque").

(** [Estoque.entrada_estoque] *)
Definition entrada_estoque (nome_produto : string) (quantidade : Z) : M unit :=
  do achado <- _buscar_produto nome_produto;
  match achado with
  | Some produto =>
      do p <- deref produto;
      store_quantidade_estoque produto (Produto.quantidade_estoque p + quantidade);;;
      print ("✓ Entrada: +" +:+ PyStr.of_int quantidade +:+ " unidades de '"
               +:+ nome_produto +:+ "'")
  | None => raise (ValueError ("Produto '" +:+ nome_produto +:+ "' não encontrado"))
  end.

(** [Estoque.saida_estoque] *)
Definition saida_estoque (nome_produto : string) (quantidade : Z) : M unit :=
  do achado <- _buscar_produto nome_produto;
  match achado with
  | Some produto =>
      do p <- deref produto;
      if quantidade <=? Produto.quantidade_estoque p then
        store_quantidade_estoque produto (Produto.quantidade_estoque p - quantidade);;;
        print ("✓ Saída: -" +:+ PyStr.of_int quantidade +:+ " unidades de '"
                 +:+ nome_produto +:+ "'")
      else
        raise (ValueError ("Estoque insuficiente! Disponível: "
                             +:+ PyStr.of_int (Produto.quantidade_estoque p)))
  | None => raise (ValueError ("Produto '" +:+ nome_produto +:+ "' não encontrado"))
  end.

(** [Estoque.verificar_alertas] *)
Definition verificar_alertas (ponto_pedido : Z) (nome_produto : string) : M bool :=
  do achado <- _buscar_produto nome_produto;
  match achado with
  | Some produto =>
      do p <- deref produto;
      if Produto.quantidade_estoque p <=? ponto_pedido then
        print ("⚠️  ALERTA: '" +:+ nome_produto +:+ "' atingiu ponto de pedido!");;;
        ret true
      else ret false
  | None => ret false
  end.

(** The loop of [relatorio_estoque]: one [print] for each entry. *)
Fixpoint imprimir_produtos (entradas : list loc) : M unit :=
  match entradas with
  | [] => ret tt
  | l :: resto =>
      do produto <- deref l;
      print ("• " +:+ Produto.__str__ produto);;;
      imprimir_produtos resto
  end.

(** [Estoque.relatorio_estoque] *)
Definition relatorio_estoque : M unit :=
  do este <- get_self;
  print (PyStr.nl +:+ regua);;;
  print ("RELATÓRIO DE ESTOQUE: " +:+ estoque_nome este);;;
  print regua;;;
  match produtos este with
  | [] => print "Nenhum produto cadastrado."
  | _ :: _ =>
      imprimir_produtos (produtos este);;;
      print (regua +:+ PyStr.nl)
  end.

End EstoqueOps.

(* ===================================================================== *)
(** ** Programs over a ledger *)
(* ===================================================================== *)

(** One statement of a caller: building a [Produto] (the new object gets an
    unused identity [l]) or calling one method of the ledger. *)
Inductive call : Type :=
| NewProduto (l : loc) (nome : string) (tipo : TipoBebida)
    (custo_manutencao custo_pedido preco_unitario : PyFloat.float)
| AdicionarProduto (produto : loc)
| EntradaEstoque (nome_produto : string) (quantidade : Z)
| SaidaEstoque (nome_produto : string) (quantidade : Z)
| VerificarAlertas (ponto_pedido : Z) (nome_produto : string)
| RelatorioEstoque.

(** [Produto(...)]: a new object at the unused identity [l]. *)
Definition new_produto (l : loc) (nome : string) (tipo : TipoBebida)
    (custo_manutencao custo_pedido preco_unitario : PyFloat.float) : M loc :=
  fun s =>
    match heap s !! l with
    | None =>
        Some (Return l,
              {| heap := <[l := Produto.__init__ nome tipo custo_manutencao
                                  custo_pedido preco_unitario]> (heap s);
                 self := self s; stdout := stdout s |})
    | Some _ => None
    end.

(** The state after one statement; an exception is caught by the caller,
    who goes on in the state the method left. *)
Definition exec (c : call) (s : State) : option State :=
  let final {A} (r : option (outcome A * State)) := snd <$> r in
  match c with
  | NewProduto l n t cm cp pu => final (new_produto l n t cm cp pu s)
  | AdicionarProduto l => final (EstoqueOps.adicionar_produto l s)
  | EntradaEstoque n q => final (EstoqueOps.entrada_estoque n q s)
  | SaidaEstoque n q => final (EstoqueOps.saida_estoque n q s)
  | VerificarAlertas pp n => final (EstoqueOps.verificar_alertas pp n s)
  | RelatorioEstoque => final (EstoqueOps.relatorio_estoque s)
  end.

(** The state after a sequence of statements. *)
Fixpoint run (cs : list call) (s : State) : option State :=
  match cs with
  | [] => Some s
  | c :: cs' =>
      match exec c s with
      | Some s' => run cs' s'
      | None => None
      end
  end.

(** Every quantity handed to [entrada_estoque] in [cs] is at least 0. *)
Fixpoint entradas_nao_negativas (cs : list call) : bool :=
  match cs with
  | [] => true
  | EntradaEstoque _ q :: cs' => (0 <=? q) && entradas_nao_negativas cs'
  | _ :: cs' => entradas_nao_negativas cs'
  end.

(** Every entry of the ledger refers to an existing [Produto]. *)
Definition registry_ok (s : State) : Prop :=
  forall l, l ∈ produtos (self s) -> is_Some (heap s !! l).

(** No [Produto] has a negative stock. *)
Definition stock_nonneg (s : State) : Prop :=
  forall l p, heap s !! l = Some p -> 0 <= Produto.quantidade_estoque p.

(** The product that [nome] resolves to: the first entry with that name. *)
Fixpoint first_named (h : gmap loc Produto.t) (nome : string) (entradas : list loc)
  : option loc :=
  match entradas with
  | [] => None
  | l :: resto =>
      match h !! l with
      | Some p => if String.eqb (Produto.nome p) nome then Some l
                  else first_named h nome resto
      | None => first_named h nome resto
      end
  end.

(** No entry of the ledger has the name [nome]. *)
Definition unregistered (s : State) (nome : string) : Prop :=
  forall l p, l ∈ produtos (self s) -> heap s !! l = Some p -> Produto.nome p <> nome.


(** [s] after the lines [linhas] were printed. *)
Definition emit (s : State) (linhas : list string) : State :=
  {| heap := heap s; self := self s; stdout := stdout s ++ linhas |}.

(** [s] after the stock of the object at [l], which was [p], became [q]. *)
Definition set_stock (s : State) (l : loc) (p : Produto.t) (q : Z) : State :=
  {| heap := <[l := Produto.set_quantidade_estoque p q]> (heap s);
     self := self s; stdout := stdout s |}.

(** The three lines that open a report. *)
Definition cabecalho (nome_estoque : string) : list string :=
  [PyStr.nl +:+ EstoqueOps.regua;
   "RELATÓRIO DE ESTOQUE: " +:+ nome_estoque;
   EstoqueOps.regua].

(** The line of a report for the product [p]: name, category, stock. *)
Definition linha_produto (p : Produto.t) : string :=
  "• " +:+ (Produto.nome p +:+ " (" +:+ TipoBebida_name (Produto.tipo p)
            +:+ ") - Estoque: " +:+ PyStr.of_int (Produto.quantidade_estoque p)).

(** The lines of a report for the entries [entradas], in their order. *)
Definition linhas_produtos (h : gmap loc Produto.t) (entradas : list loc) : list string :=
  (fun l => match h !! l with
            | Some p => linha_produto p
            | None => ""
            end) <$> entradas.

(** The statement [c] makes sense in [s]: a new object takes an identity
    that is not in use, and [adicionar_produto] is handed an object. *)
Definition call_ok (s : State) (c : call) : Prop :=
  match c with
  | NewProduto l _ _ _ _ _ => heap s !! l = None
  | AdicionarProduto l => is_Some (heap s !! l)
  | _ => True
  end.

(** The program [cs] makes sense when the objects [alocados] exist. *)
Fixpoint well_formed (alocados : gset loc) (cs : list call) : bool :=
  match cs with
  | [] => true
  | NewProduto l _ _ _ _ _ :: cs' =>
      bool_decide (l ∉ alocados) && well_formed ({[l]} ∪ alocados) cs'
  | AdicionarProduto l :: cs' =>
      bool_decide (l ∈ alocados) && well_formed alocados cs'
  | _ :: cs' => well_formed alocados cs'
  end.


(** [p'] is [p] but for its stock. *)
Definition same_but_stock (p p' : Produto.t) : Prop :=
  Produto.nome p' = Produto.nome p
  /\ Produto.tipo p' = Produto.tipo p
  /\ Produto.custo_manutencao p' = Produto.custo_manutencao p
  /\ Produto.custo_pedido p' = Produto.custo_pedido p
  /\ Produto.preco_unitario p' = Produto.preco_unitario p.

(** From [s] to [s'] nothing changed but, at most, the stock of the object
    [alvo] (and what was printed): the ledger has the same name and the same
    entries in the same order, the same objects exist, every object other
    than [alvo] has all its attributes, and [alvo] has all but its stock. *)
Definition only_stock_of (alvo : option loc) (s s' : State) : Prop :=
  self s' = self s
  /\ dom (heap s') = dom (heap s)
  /\ (forall l, alvo <> Some l -> heap s' !! l = heap s !! l)
  /\ (forall l p, alvo = Some l -> heap s !! l = Some p ->
        exists p', heap s' !! l = Some p' /\ same_but_stock p p').


(** [s] after the object at [l] was appended to the ledger's list. *)
Definition append_entry (s : State) (l : loc) : State :=
  {| heap := heap s;
     self := {| estoque_nome := estoque_nome (self s);
                produtos := produtos (self s) ++ [l];
                calculadora := calculadora (self s) |};
     stdout := stdout s |}.

(** [s] after a new object was built at [l]. *)
Definition alloc (s : State) (l : loc) (p : Produto.t) : State :=
  {| heap := <[l := p]> (heap s); self := self s; stdout := stdout s |}.

(** The changes of state a statement can make, whatever it prints. *)
Inductive step : call -> State -> State -> Prop :=
| step_new l n t cm cp pu s :
    heap s !! l = None ->
    step (NewProduto l n t cm cp pu) s (alloc s l (Produto.__init__ n t cm cp pu))
| step_adicionar l p s linhas :
    heap s !! l = Some p ->
    step (AdicionarProduto l) s (emit (append_entry s l) linhas)
| step_entrada nome q l p s linhas :
    first_named (heap s) nome (produtos (self s)) = Some l ->
    heap s !! l = Some p ->
    step (EntradaEstoque nome q) s
      (emit (set_stock s l p (Produto.quantidade_estoque p + q)) linhas)
| step_entrada_raise nome q s :
    first_named (heap s) nome (produtos (self s)) = None ->
    step (EntradaEstoque nome q) s s
| step_saida nome q l p s linhas :
    first_named (heap s) nome (produtos (self s)) = Some l ->
    heap s !! l = Some p ->
    q <= Produto.quantidade_estoque p ->
    step (SaidaEstoque nome q) s
      (emit (set_stock s l p (Produto.quantidade_estoque p - q)) linhas)
| step_saida_raise nome q s :
    step (SaidaEstoque nome q) s s
| step_alertas pp nome s linhas :
    step (VerificarAlertas pp nome) s (emit s linhas)
| step_relatorio s linhas :
    step RelatorioEstoque s (emit s linhas).

(* ===================================================================== *)
(** ** The scenario of the driver *)
(* ===================================================================== *)

Module Demo.
Import PyFloat.

(** [Produto("Brahma Lata 350ml", CERVEJA, 0.50, 150.0, 2.50)] *)
Definition brahma : Produto.t :=
  Produto.__init__ "Brahma Lata 350ml" CERVEJA
    (div (round_int 1) (round_int 2)) (round_int 150) (div (round_int 5) (round_int 2)).

(** [Produto("Coca-Cola 2L", REFRIGERANTE, 0.30, 120.0, 5.00)] *)
Definition coca_cola : Produto.t :=
  Produto.__init__ "Coca-Cola 2L" REFRIGERANTE
    (div (round_int 3) (round_int 10)) (round_int 120) (round_int 5).

Definition brahma_500 : Produto.t := Produto.set_quantidade_estoque brahma 500.
Definition coca_cola_300 : Produto.t := Produto.set_quantidade_estoque coca_cola 300.

(** The driver up to the two calls of [entrada_estoque]. *)
Definition programa : list call :=
  [NewProduto 1 "Brahma Lata 350ml" CERVEJA
     (div (round_int 1) (round_int 2)) (round_int 150) (div (round_int 5) (round_int 2));
   NewProduto 2 "Coca-Cola 2L" REFRIGERANTE
     (div (round_int 3) (round_int 10)) (round_int 120) (round_int 5);
   AdicionarProduto 1;
   AdicionarProduto 2;
   EntradaEstoque "Brahma Lata 350ml" 500;
   EntradaEstoque "Coca-Cola 2L" 300].

(** The state the driver is in after [programa], with nothing printed. *)
Definition estado : State :=
  {| heap := <[1%positive := brahma_500]> (<[2%positive := coca_cola_300]> ∅);
     self := {| estoque_nome := "Distribuidora Salvador";
                produtos := [1%positive; 2%positive];
                calculadora := tt |};
     stdout := [] |}.

(** A program that hands [entrada_estoque] a negative quantity. *)
Definition programa_negativo : list call :=
  [NewProduto 1 "Brahma Lata 350ml" CERVEJA
     (div (round_int 1) (round_int 2)) (round_int 150) (div (round_int 5) (round_int 2));
   AdicionarProduto 1;
   EntradaEstoque "Brahma Lata 350ml" (-5)].

End Demo.

(** [Estoque()]: the parameter [nome_estoque] takes its default value. *)
Definition Estoque__init__default (h : gmap loc Produto.t) : State :=
  Estoque__init__ h "Estoque Principal".



(** The line [verificar_alertas] prints. *)
Definition linha_alerta (nome_produto : string) : string :=
  "⚠️  ALERTA: '" +:+ nome_produto +:+ "' atingiu ponto de pedido!".

(** The message of the [ValueError] for a name that no entry has. *)
Definition msg_nao_encontrado (nome_produto : string) : string :=
  "Produto '" +:+ nome_produto +:+ "' não encontrado".


(** From [s] to [s'] the ledger and the store only grew: the ledger has the
    same name and its old entries, in their order, before any new one;
    every object is still there with its name, category, costs and price;
    what was printed is still there, before anything new. *)
Definition extends (s s' : State) : Prop :=
  estoque_nome (self s') = estoque_nome (self s)
  /\ produtos (self s) `prefix_of` produtos (self s')
  /\ (forall l p, heap s !! l = Some p ->
        exists p', heap s' !! l = Some p' /\ same_but_stock p p')
  /\ stdout s `prefix_of` stdout s'.

Module DemoDuplicado.
Import PyFloat.

(** A second product under the name of [Demo.brahma], with its own price. *)
Definition outra_brahma : Produto.t :=
  Produto.__init__ "Brahma Lata 350ml" CERVEJA
    (div (round_int 1) (round_int 2)) (round_int 100) (round_int 3).

(** A ledger with both of them, the first with 500 units. *)
Definition estado : State :=
  {| heap := <[1%positive := Demo.brahma_500]> (<[2%positive := outra_brahma]> ∅);
     self := {| estoque_nome := "Distribuidora Salvador";
                produtos := [1%positive; 2%positive];
                calculadora := tt |};
     stdout := [] |}.

(** Stock moves under the shared name, and a third product. *)
Definition programa : list call :=
  [EntradaEstoque "Brahma Lata 350ml" 40;
   SaidaEstoque "Brahma Lata 350ml" 15;
   NewProduto 3 "Coca-Cola 2L" REFRIGERANTE
     (div (round_int 3) (round_int 10)) (round_int 120) (round_int 5);
   AdicionarProduto 3;
   VerificarAlertas 320 "Brahma Lata 350ml";
   RelatorioEstoque].

End DemoDuplicado.

(** [x] is a zero, a finite number or an infinity with the sign bit [sx]. *)
Definition has_sign (sx : bool) (x : PyFloat.float) : bool :=
  match x with
  | S754_zero s | S754_infinity s | S754_finite s _ _ => Bool.eqb s sx
  | S754_nan => false
  end.

(** [x] is a finite number above zero. *)
Definition finite_pos (x : PyFloat.float) : bool :=
  match x with
  | S754_finite false _ _ => true
  | _ => false
  end.

(** [x] is a finite number below zero. *)
Definition finite_neg (x : PyFloat.float) : bool :=
  match x with
  | S754_finite true _ _ => true
  | _ => false
  end.

(** [x] is a zero or a finite number above zero. *)
Definition finite_nonneg (x : PyFloat.float) : bool :=
  match x with
  | S754_zero _ | S754_finite false _ _ => true
  | _ => false
  end.

(** [x] is a zero of either sign, a finite number above zero or +inf. *)
Definition zero_or_positive (x : PyFloat.float) : bool :=
  match x with
  | S754_zero _ | S754_finite false _ _ | S754_infinity false => true
  | _ => false
  end.

Module DemoFloat.
Import PyFloat.

(** The floats 0.2, 50.0, 18000.0, 150.0, 6.0 and -6.0 of the driver's
    calls, and the smallest float above zero, 5e-324. *)
Definition f0_2 : float := div (round_int 1) (round_int 5).
Definition f50 : float := round_int 50.
Definition f18000 : float := round_int 18000.
Definition f150 : float := round_int 150.
Definition f6 : float := round_int 6.
Definition f6_neg : float := round_int (-6).
Definition f_min : float := S754_finite false 1 (-1074).

End DemoFloat.

(* ===================================================================== *)
(** ** Facts about binary64 arithmetic *)
(* ===================================================================== *)

Section FloatFacts.
Import PyFloat.

(** Rounding keeps the sign it is given. *)
Lemma binary_round_aux_not_negative p e m ex l :
  not_negative (binary_round_aux p e false m ex l) = true.
Proof.
  unfold binary_round_aux.
  destruct (shr_fexp p e m ex l) as [mrs' e'].
  destruct (shr_fexp p e _ e' loc_Exact) as [mrs'' e''].
  destruct (shr_m mrs''); [reflexivity | | reflexivity].
  destruct (e'' <=? e - p); reflexivity.
Qed.

Lemma binary_round_not_negative p e m ex :
  not_negative (binary_round p e false m ex) = true.
Proof.
  unfold binary_round.
  destruct (shl_align m ex _) as [mz ez].
  apply binary_round_aux_not_negative.
Qed.

Lemma nonneg_not_negative x : nonneg x = true -> not_negative x = true.
Proof.
  unfold nonneg, SFleb, SFcompare.
  destruct x as [s | s | | s m e]; try destruct s; cbn; congruence.
Qed.

Lemma pos_cases x :
  pos x = true ->
  x = S754_infinity false \/ exists m e, x = S754_finite false m e.
Proof.
  unfold pos, SFltb, SFcompare.
  destruct x as [s | s | | s m e]; try destruct s; cbn; try discriminate; eauto.
Qed.

Lemma pos_not_zero x : pos x = true -> eq_zero x = false.
Proof.
  intros H. destruct (pos_cases x H) as [-> | (m & e & ->)]; reflexivity.
Qed.

Lemma round_int_not_negative n : 0 <= n -> not_negative (round_int n) = true.
Proof.
  intros Hn. unfold round_int, binary_normalize.
  destruct n as [| q | q]; [reflexivity | apply binary_round_not_negative | lia].
Qed.

Lemma mul_not_negative x y :
  not_negative x = true -> not_negative y = true -> not_negative (mul x y) = true.
Proof.
  unfold mul, SFmul.
  destruct x as [sx | sx | | sx mx ex], y as [sy | sy | | sy my ey];
    try destruct sx; try destruct sy; cbn [not_negative xorb];
    try congruence; intros _ _.
  apply binary_round_aux_not_negative.
Qed.

Lemma add_not_negative x y :
  not_negative x = true -> not_negative y = true -> not_negative (add x y) = true.
Proof.
  unfold add, SFadd.
  destruct x as [sx | sx | | sx mx ex], y as [sy | sy | | sy my ey];
    try destruct sx; try destruct sy; cbn [not_negative];
    try congruence; intros _ _.
  cbn [cond_Zopp Z.add binary_normalize].
  apply binary_round_not_negative.
Qed.

Lemma div_not_negative x y :
  not_negative x = true -> pos y = true -> not_negative (div x y) = true.
Proof.
  intros Hx Hy. unfold div, SFdiv.
  destruct (pos_cases y Hy) as [-> | (my & ey & ->)];
    destruct x as [sx | sx | | sx mx ex]; try destruct sx;
    cbn [not_negative xorb] in *; try congruence.
  destruct (SFdiv_core_binary _ _ _ _ _ _) as [[mz ez] lz].
  apply binary_round_aux_not_negative.
Qed.

Lemma sqrt_not_negative x : not_negative (sqrt x) = true.
Proof.
  unfold sqrt, SFsqrt.
  destruct x as [sx | sx | | sx mx ex]; try destruct sx; try reflexivity.
  destruct (SFsqrt_core_binary _ _ _ _) as [[mz ez] lz].
  apply binary_round_aux_not_negative.
Qed.

(** An operand that is infinite or NaN gives a result that is. *)
Lemma is_finite_mul x y :
  is_finite (mul x y) = true -> is_finite x = true /\ is_finite y = true.
Proof.
  unfold mul, SFmul.
  destruct x as [sx | sx | | sx mx ex], y as [sy | sy | | sy my ey];
    cbn [is_finite]; try discriminate; auto.
Qed.

Lemma is_finite_add x y :
  is_finite (add x y) = true -> is_finite x = true /\ is_finite y = true.
Proof.
  unfold add, SFadd.
  destruct x as [sx | sx | | sx mx ex], y as [sy | sy | | sy my ey];
    try destruct sx; try destruct sy;
    cbn [is_finite]; try discriminate; auto.
Qed.

Lemma is_finite_sqrt x : is_finite (sqrt x) = true -> is_finite x = true.
Proof.
  unfold sqrt, SFsqrt.
  destruct x as [sx | sx | | sx mx ex]; try destruct sx;
    cbn [is_finite]; try discriminate; auto.
Qed.

Lemma of_int_finite n : is_finite (round_int n) = true -> of_int n = Return (round_int n).
Proof. unfold of_int. destruct (round_int n); cbn; intros H; (discriminate H || reflexivity). Qed.

(** The ceiling of a quotient by a positive number. *)
Lemma ceil_div_spec a b : 0 < b -> a <= ceil_div a b * b < a + b.
Proof.
  intros Hb. unfold ceil_div.
  pose proof (Z.div_mod (- a) b ltac:(lia)) as Hdm.
  pose proof (Z.mod_pos_bound (- a) b Hb) as Hm.
  nia.
Qed.

(** [math.ceil] of a finite float returns its ceiling. *)
Lemma math_ceil_finite x :
  is_finite x = true ->
  exists r, math_ceil x = Return r /\ is_ceiling r (to_Q x)
            /\ (not_negative x = true -> 0 <= r).
Proof.
  destruct x as [s | s | | s m e]; cbn [is_finite]; try discriminate; intros _.
  - exists 0. split; [reflexivity |]. split; [| lia].
    split; unfold Qle, Qlt; cbn; lia.
  - cbn [math_ceil to_Q]. eexists. split; [reflexivity |].
    destruct e as [| k | k].
    + split; [| destruct s; cbn; try discriminate; lia].
      split; unfold Qle, Qlt; cbn; lia.
    + split; [| destruct s; cbn [not_negative cond_Zopp]; try discriminate; lia].
      split; unfold Qle, Qlt; cbn -[Z.pow Z.mul]; lia.
    + pose proof (ceil_div_spec (cond_Zopp s (Z.pos m)) (Z.pos (2 ^ k)) ltac:(lia)) as Hc.
      split.
      * split; unfold Qle, Qlt, Qplus; cbn -[Z.mul ceil_div Pos.pow cond_Zopp];
          rewrite ?Pos.mul_1_r; lia.
      * destruct s; cbn [not_negative cond_Zopp] in *; try discriminate.
        intros _. nia.
Qed.

Lemma math_ceil_not_finite x : is_finite x = false -> returns (math_ceil x) = false.
Proof. destruct x; cbn; congruence. Qed.

End FloatFacts.

(* ===================================================================== *)
(** ** CalculadoraCusto: the three formulas *)
(* ===================================================================== *)

Section CalculadoraFacts.
Import PyFloat CalculadoraCusto.

Lemma math_sqrt_not_negative x :
  not_negative x = true -> math_sqrt x = Return (sqrt x).
Proof. destruct x as [s | s | | s m e]; try destruct s; cbn; congruence || reflexivity. Qed.

Lemma of_int_2 : of_int 2 = Return (round_int 2).
Proof. reflexivity. Qed.

(** When the product is infinite or NaN, or [dias_seguranca] is too large
    for a float, [calcular_estoque_seguranca] raises. *)
Lemma calcular_estoque_seguranca_raises d n a :
  is_finite (estoque_seguranca_float d n a) = false ->
  returns (calcular_estoque_seguranca d n a) = false.
Proof.
  unfold estoque_seguranca_float, calcular_estoque_seguranca, of_int.
  destruct (round_int n); cbn [Py.bind returns]; auto using math_ceil_not_finite.
Qed.

(** When the sum is infinite or NaN, or an [int] argument is too large for a
    float, [determinar_ponto_pedido] raises. *)
Lemma determinar_ponto_pedido_raises L D S :
  is_finite (ponto_pedido_float L D S) = false ->
  returns (determinar_ponto_pedido L D S) = false.
Proof.
  unfold ponto_pedido_float, determinar_ponto_pedido, of_int.
  destruct (round_int L); cbn [Py.bind returns]; auto;
    destruct (round_int S); cbn [Py.bind returns]; auto using math_ceil_not_finite.
Qed.

(** C4 (as amended). For non-negative arguments whose binary64 product
    [desvio_padrao * float(dias_seguranca) * demanda_media_diaria] is finite,
    [calcular_estoque_seguranca] returns the ceiling of that product: a
    non-negative integer that is at least the product. *)
Theorem calcular_estoque_seguranca_ceiling (d : float) (n : Z) (a : float) :
  nonneg d = true -> 0 <= n -> nonneg a = true ->
  is_finite (estoque_seguranca_float d n a) = true ->
  exists r, calcular_estoque_seguranca d n a = Return r
            /\ 0 <= r
            /\ is_ceiling r (to_Q (estoque_seguranca_float d n a)).
Proof.
  intros Hd Hn Ha Hfin. unfold estoque_seguranca_float in *.
  destruct (is_finite_mul _ _ Hfin) as [Hfin1 _].
  destruct (is_finite_mul _ _ Hfin1) as [_ Hfn].
  unfold calcular_estoque_seguranca. rewrite (of_int_finite n Hfn). cbn [Py.bind].
  destruct (math_ceil_finite _ Hfin) as (r & Hr & Hceil & Hpos).
  exists r. repeat split; try apply Hceil; [exact Hr |].
  apply Hpos.
  auto using mul_not_negative, round_int_not_negative, nonneg_not_negative.
Qed.

(** C5 (as amended). For non-negative arguments whose binary64 value
    [float(lead_time_dias) * demanda_media_diaria + float(estoque_seguranca)]
    is finite, [determinar_ponto_pedido] returns the ceiling of that value,
    which is not negative. *)
Theorem determinar_ponto_pedido_ceiling (L : Z) (D : float) (S : Z) :
  0 <= L -> nonneg D = true -> 0 <= S ->
  is_finite (ponto_pedido_float L D S) = true ->
  exists r, determinar_ponto_pedido L D S = Return r
            /\ 0 <= r
            /\ is_ceiling r (to_Q (ponto_pedido_float L D S)).
Proof.
  intros HL HD HS Hfin. unfold ponto_pedido_float in *.
  destruct (is_finite_add _ _ Hfin) as [Hfin1 HfS].
  destruct (is_finite_mul _ _ Hfin1) as [HfL _].
  unfold determinar_ponto_pedido.
  rewrite (of_int_finite L HfL), (of_int_finite S HfS). cbn [Py.bind].
  destruct (math_ceil_finite _ Hfin) as (r & Hr & Hceil & Hpos).
  exists r. repeat split; try apply Hceil; [exact Hr |].
  apply Hpos.
  auto using add_not_negative, mul_not_negative, round_int_not_negative,
    nonneg_not_negative.
Qed.

(** The guard of [calcular_lote_economico]: a zero [custo_manutencao], of
    either sign, raises the [ValueError] of the source, whatever the other
    two arguments are. *)
Lemma calcular_lote_economico_zero D c h :
  eq_zero h = true ->
  calcular_lote_economico D c h
    = Raise (ValueError "Custo de manutenção não pode ser zero").
Proof. intros Hz. unfold calcular_lote_economico. now rewrite Hz. Qed.

(** C3 (as amended). With [demanda_anual] and [custo_pedido] non-negative:
    a zero [custo_manutencao] raises the [ValueError] of the guard; a
    positive one for which the binary64 value
    [sqrt((2 * demanda_anual * custo_pedido) / custo_manutencao)] is finite
    makes [calcular_lote_economico] return the ceiling of that value. *)
Theorem calcular_lote_economico_spec (D c h : float) :
  nonneg D = true -> nonneg c = true ->
  (eq_zero h = true ->
     calcular_lote_economico D c h
       = Raise (ValueError "Custo de manutenção não pode ser zero"))
  /\ (pos h = true -> is_finite (eoq_float D c h) = true ->
        exists r, calcular_lote_economico D c h = Return r
                  /\ 0 <= r
                  /\ is_ceiling r (to_Q (eoq_float D c h))).
Proof.
  intros HD Hc. split; [apply calcular_lote_economico_zero |].
  intros Hh Hfin. unfold eoq_float in *.
  unfold calcular_lote_economico, truediv.
  rewrite (pos_not_zero h Hh), of_int_2. cbn [Py.bind].
  assert (Hq : not_negative (div (mul (mul (round_int 2) D) c) h) = true).
  { apply div_not_negative; [| exact Hh].
    auto using mul_not_negative, round_int_not_negative, nonneg_not_negative with lia. }
  rewrite (math_sqrt_not_negative _ Hq). cbn [Py.bind].
  destruct (math_ceil_finite _ Hfin) as (r & Hr & Hceil & Hpos).
  exists r. repeat split; try apply Hceil; [exact Hr |].
  apply Hpos, sqrt_not_negative.
Qed.

(** When the square root is infinite or NaN, [calcular_lote_economico]
    raises. *)
Lemma calcular_lote_economico_raises D c h :
  is_finite (eoq_float D c h) = false ->
  returns (calcular_lote_economico D c h) = false.
Proof.
  unfold eoq_float, calcular_lote_economico, truediv.
  destruct (eq_zero h); [reflexivity |].
  rewrite of_int_2. cbn [Py.bind]. unfold math_sqrt.
  destruct (div _ h) as [s | s | | s m e] eqn:E; try destruct s;
    cbn [Py.bind returns]; auto using math_ceil_not_finite.
Qed.

End CalculadoraFacts.

Section CalculadoraExamples.
Import PyFloat CalculadoraCusto.

(** The scenario of the driver: 0.2, 7 days and 50 units a day. *)
Example estoque_seguranca_demo :
  calcular_estoque_seguranca (div (round_int 1) (round_int 5)) 7 (round_int 50) = Return 70.
Proof. vm_compute. reflexivity. Qed.

Example ponto_pedido_demo :
  determinar_ponto_pedido 5 (round_int 50) 70 = Return 320.
Proof. vm_compute. reflexivity. Qed.

Example lote_economico_demo :
  calcular_lote_economico (round_int 18000) (round_int 150) (round_int 6) = Return 949.
Proof. vm_compute. reflexivity. Qed.

(** [math.ceil(-3.5)] is -3 and [math.ceil(3.5)] is 4. *)
Example math_ceil_halves :
  math_ceil (div (round_int (-7)) (round_int 2)) = Return (-3)
  /\ math_ceil (div (round_int 7) (round_int 2)) = Return 4.
Proof. split; vm_compute; reflexivity. Qed.

(** The largest int that still converts, and the first that does not. *)
Example of_int_range :
  returns (of_int (2 ^ 1024 - 2 ^ 970 - 1)) = true
  /\ of_int (2 ^ 1024 - 2 ^ 970)
     = Raise (OverflowError "int too large to convert to float").
Proof. split; vm_compute; reflexivity. Qed.

(** The ceiling is that of the rounded product: 0.1 is a little above one
    tenth, yet [0.1 * 10 * 1.0] rounds to 1.0 and the result is 1. *)
Example estoque_seguranca_rounded :
  calcular_estoque_seguranca (div (round_int 1) (round_int 10)) 10 (round_int 1) = Return 1.
Proof. vm_compute. reflexivity. Qed.

Lemma calcular_estoque_seguranca_ceiling_witness :
  exists r,
    calcular_estoque_seguranca (div (round_int 1) (round_int 5)) 7 (round_int 50) = Return r
    /\ 0 <= r
    /\ is_ceiling r (to_Q (estoque_seguranca_float
                             (div (round_int 1) (round_int 5)) 7 (round_int 50))).
Proof.
  apply (calcular_estoque_seguranca_ceiling
           (div (round_int 1) (round_int 5)) 7 (round_int 50)).
  - vm_compute. reflexivity.
  - lia.
  - vm_compute. reflexivity.
  - vm_compute. reflexivity.
Defined.

Lemma determinar_ponto_pedido_ceiling_witness :
  exists r,
    determinar_ponto_pedido 5 (round_int 50) 70 = Return r
    /\ 0 <= r
    /\ is_ceiling r (to_Q (ponto_pedido_float 5 (round_int 50) 70)).
Proof.
  apply (determinar_ponto_pedido_ceiling 5 (round_int 50) 70).
  - lia.
  - vm_compute. reflexivity.
  - lia.
  - vm_compute. reflexivity.
Defined.

Lemma calcular_lote_economico_spec_witness :
  calcular_lote_economico (round_int 18000) (round_int 150) (S754_zero false)
    = Raise (ValueError "Custo de manutenção não pode ser zero")
  /\ exists r,
       calcular_lote_economico (round_int 18000) (round_int 150) (round_int 6) = Return r
       /\ 0 <= r
       /\ is_ceiling r (to_Q (eoq_float (round_int 18000) (round_int 150) (round_int 6))).
Proof.
  split.
  - refine (proj1 (calcular_lote_economico_spec
                     (round_int 18000) (round_int 150) (S754_zero false) _ _) _);
      vm_compute; reflexivity.
  - refine (proj2 (calcular_lote_economico_spec
                     (round_int 18000) (round_int 150) (round_int 6) _ _) _ _);
      vm_compute; reflexivity.
Defined.

(** The claim C4 fails as stated: 2.0**1023, 2 and 1.0 are non-negative,
    their product overflows to infinity and [math.ceil] raises. *)
Lemma calcular_estoque_seguranca_overflow :
  valid_binary prec emax two_1023 = true
  /\ nonneg two_1023 = true /\ 0 <= 2 /\ nonneg (round_int 1) = true
  /\ calcular_estoque_seguranca two_1023 2 (round_int 1)
     = Raise (OverflowError "cannot convert float infinity to integer").
Proof.
  split; [vm_compute; reflexivity |].
  split; [vm_compute; reflexivity |].
  split; [lia |].
  split; vm_compute; reflexivity.
Qed.

(** The claim C5 fails as stated: with 2 days, 2.0**1023 a day and no safety
    stock the value overflows to infinity and [math.ceil] raises. *)
Lemma determinar_ponto_pedido_overflow :
  valid_binary prec emax two_1023 = true
  /\ 0 <= 2 /\ nonneg two_1023 = true /\ 0 <= 0
  /\ determinar_ponto_pedido 2 two_1023 0
     = Raise (OverflowError "cannot convert float infinity to integer").
Proof.
  split; [vm_compute; reflexivity |].
  split; [lia |].
  split; [vm_compute; reflexivity |].
  split; [lia |].
  vm_compute; reflexivity.
Qed.

(** The claim C3 fails as stated: with a demand of 2.0**1023, an order cost
    of 1.0 and a holding cost of 1.0 (which is positive), the quotient
    overflows to infinity and [math.ceil] raises. *)
Lemma calcular_lote_economico_overflow :
  valid_binary prec emax two_1023 = true
  /\ nonneg two_1023 = true /\ nonneg (round_int 1) = true /\ pos (round_int 1) = true
  /\ calcular_lote_economico two_1023 (round_int 1) (round_int 1)
     = Raise (OverflowError "cannot convert float infinity to integer").
Proof.
  repeat (split; [vm_compute; reflexivity |]).
  vm_compute; reflexivity.
Qed.

End CalculadoraExamples.

(* ===================================================================== *)
(** ** Estoque: looking a product up *)
(* ===================================================================== *)

Section Lookup.
Import StM EstoqueOps.

Lemma buscar_em_first_named nome ls s :
  (forall l, l ∈ ls -> is_Some (heap s !! l)) ->
  buscar_em nome ls s = Some (Return (first_named (heap s) nome ls), s).
Proof.
  induction ls as [| l ls IH]; intros Hok; cbn; [reflexivity |].
  unfold bind, deref.
  destruct (Hok l) as [p Hp]; [left |]. rewrite Hp.
  destruct (String.eqb (Produto.nome p) nome); [reflexivity |].
  apply IH. intros l' Hl'. apply Hok. now right.
Qed.

Lemma _buscar_produto_first_named nome s :
  registry_ok s ->
  _buscar_produto nome s
    = Some (Return (first_named (heap s) nome (produtos (self s))), s).
Proof.
  intros Hok. unfold _buscar_produto, bind, get_self.
  now apply buscar_em_first_named.
Qed.

Lemma first_named_Some h nome ls l :
  first_named h nome ls = Some l ->
  l ∈ ls /\ exists p, h !! l = Some p /\ Produto.nome p = nome.
Proof.
  induction ls as [| l0 ls IH]; cbn; [discriminate |].
  destruct (h !! l0) as [p0 |] eqn:E0.
  - destruct (String.eqb (Produto.nome p0) nome) eqn:En.
    + intros [= <-]. split; [left |]. exists p0. split; [exact E0 |].
      now apply String.eqb_eq.
    + intros H. destruct (IH H) as [Hin Hp]. split; [now right | exact Hp].
  - intros H. destruct (IH H) as [Hin Hp]. split; [now right | exact Hp].
Qed.

Lemma first_named_None h nome ls :
  first_named h nome ls = None <->
  (forall l p, l ∈ ls -> h !! l = Some p -> Produto.nome p <> nome).
Proof.
  induction ls as [| l0 ls IH]; cbn.
  - split; [| reflexivity]. intros _ l p Hin. inversion Hin.
  - destruct (h !! l0) as [p0 |] eqn:E0.
    + destruct (String.eqb (Produto.nome p0) nome) eqn:En.
      * split; [discriminate |]. intros H. exfalso.
        apply (H l0 p0); [left | exact E0 | now apply String.eqb_eq].
      * rewrite IH. split; intros H l p Hin Hl.
        -- apply elem_of_cons in Hin as [-> | Hin]; [| now apply (H l p)].
           rewrite E0 in Hl. injection Hl as <-. now apply String.eqb_neq.
        -- apply (H l p); [now right | exact Hl].
    + rewrite IH. split; intros H l p Hin Hl.
      * apply elem_of_cons in Hin as [-> | Hin]; [congruence | now apply (H l p)].
      * apply (H l p); [now right | exact Hl].
Qed.

(** A change of stock does not change what a name resolves to. *)
Lemma first_named_set_stock h nome ls l p q :
  h !! l = Some p ->
  first_named (<[l := Produto.set_quantidade_estoque p q]> h) nome ls
    = first_named h nome ls.
Proof.
  intros Hl. induction ls as [| l0 ls IH]; cbn; [reflexivity |].
  destruct (decide (l = l0)) as [<- | Hne].
  - rewrite lookup_insert_eq, Hl. cbn. now rewrite IH.
  - rewrite lookup_insert_ne by exact Hne. now rewrite IH.
Qed.

Lemma registry_ok_emit s linhas : registry_ok s -> registry_ok (emit s linhas).
Proof. exact (fun H => H). Qed.

Lemma registry_ok_set_stock s l p q : registry_ok s -> registry_ok (set_stock s l p q).
Proof.
  intros Hok l' Hl'. cbn. destruct (decide (l = l')) as [<- | Hne].
  - rewrite lookup_insert_eq. eauto.
  - rewrite lookup_insert_ne by exact Hne. now apply Hok.
Qed.

End Lookup.

(* ===================================================================== *)
(** ** Estoque: what each method does *)
(* ===================================================================== *)

Lemma emit_nil_eq s : emit s [] = s.
Proof. destruct s. unfold emit. cbn. now rewrite app_nil_r. Qed.

Section Methods.
Import StM EstoqueOps.

Variable s : State.
Hypothesis Hok : registry_ok s.

Lemma entrada_estoque_found nome l p q :
  first_named (heap s) nome (produtos (self s)) = Some l ->
  heap s !! l = Some p ->
  entrada_estoque nome q s
    = Some (Return tt,
            emit (set_stock s l p (Produto.quantidade_estoque p + q))
              ["✓ Entrada: +" +:+ PyStr.of_int q +:+ " unidades de '" +:+ nome +:+ "'"]).
Proof.
  intros Hf Hl. unfold entrada_estoque, bind at 1.
  rewrite (_buscar_produto_first_named nome s Hok), Hf.
  unfold bind, deref, store_quantidade_estoque, print. rewrite Hl. cbn.
  rewrite Hl. reflexivity.
Qed.

Lemma entrada_estoque_not_found nome q :
  first_named (heap s) nome (produtos (self s)) = None ->
  entrada_estoque nome q s
    = Some (Raise (ValueError ("Produto '" +:+ nome +:+ "' não encontrado")), s).
Proof.
  intros Hf. unfold entrada_estoque, bind at 1.
  now rewrite (_buscar_produto_first_named nome s Hok), Hf.
Qed.

Lemma saida_estoque_enough nome l p q :
  first_named (heap s) nome (produtos (self s)) = Some l ->
  heap s !! l = Some p ->
  q <= Produto.quantidade_estoque p ->
  saida_estoque nome q s
    = Some (Return tt,
            emit (set_stock s l p (Produto.quantidade_estoque p - q))
              ["✓ Saída: -" +:+ PyStr.of_int q +:+ " unidades de '" +:+ nome +:+ "'"]).
Proof.
  intros Hf Hl Hq. unfold saida_estoque, bind at 1.
  rewrite (_buscar_produto_first_named nome s Hok), Hf.
  unfold bind at 1, deref. rewrite Hl.
  rewrite (proj2 (Z.leb_le _ _) Hq).
  unfold bind, store_quantidade_estoque, print. rewrite Hl. reflexivity.
Qed.

Lemma saida_estoque_short nome l p q :
  first_named (heap s) nome (produtos (self s)) = Some l ->
  heap s !! l = Some p ->
  Produto.quantidade_estoque p < q ->
  saida_estoque nome q s
    = Some (Raise (ValueError ("Estoque insuficiente! Disponível: "
                                 +:+ PyStr.of_int (Produto.quantidade_estoque p))), s).
Proof.
  intros Hf Hl Hq. unfold saida_estoque, bind at 1.
  rewrite (_buscar_produto_first_named nome s Hok), Hf.
  unfold bind at 1, deref. rewrite Hl.
  rewrite (proj2 (Z.leb_gt _ _) Hq). reflexivity.
Qed.

Lemma saida_estoque_not_found nome q :
  first_named (heap s) nome (produtos (self s)) = None ->
  saida_estoque nome q s
    = Some (Raise (ValueError ("Produto '" +:+ nome +:+ "' não encontrado")), s).
Proof.
  intros Hf. unfold saida_estoque, bind at 1.
  now rewrite (_buscar_produto_first_named nome s Hok), Hf.
Qed.

Lemma verificar_alertas_low pp nome l p :
  first_named (heap s) nome (produtos (self s)) = Some l ->
  heap s !! l = Some p ->
  Produto.quantidade_estoque p <= pp ->
  verificar_alertas pp nome s
    = Some (Return true,
            emit s ["⚠️  ALERTA: '" +:+ nome +:+ "' atingiu ponto de pedido!"]).
Proof.
  intros Hf Hl Hq. unfold verificar_alertas, bind at 1.
  rewrite (_buscar_produto_first_named nome s Hok), Hf.
  unfold bind at 1, deref. rewrite Hl.
  rewrite (proj2 (Z.leb_le _ _) Hq). reflexivity.
Qed.

Lemma verificar_alertas_high pp nome l p :
  first_named (heap s) nome (produtos (self s)) = Some l ->
  heap s !! l = Some p ->
  pp < Produto.quantidade_estoque p ->
  verificar_alertas pp nome s = Some (Return false, s).
Proof.
  intros Hf Hl Hq. unfold verificar_alertas, bind at 1.
  rewrite (_buscar_produto_first_named nome s Hok), Hf.
  unfold bind at 1, deref. rewrite Hl.
  rewrite (proj2 (Z.leb_gt _ _) Hq). reflexivity.
Qed.

Lemma verificar_alertas_not_found pp nome :
  first_named (heap s) nome (produtos (self s)) = None ->
  verificar_alertas pp nome s = Some (Return false, s).
Proof.
  intros Hf. unfold verificar_alertas, bind at 1.
  now rewrite (_buscar_produto_first_named nome s Hok), Hf.
Qed.

End Methods.

Lemma verificar_alertas_prints s pp nome :
  registry_ok s ->
  exists b linhas, EstoqueOps.verificar_alertas pp nome s = Some (Return b, emit s linhas).
Proof.
  intros Hok.
  destruct (first_named (heap s) nome (produtos (self s))) as [l |] eqn:Hf.
  - destruct (first_named_Some _ _ _ _ Hf) as (_ & p & Hl & _).
    destruct (Z_le_gt_dec (Produto.quantidade_estoque p) pp) as [Hle | Hgt].
    + eexists _, _. now apply verificar_alertas_low with (l := l) (p := p).
    + exists false, []. rewrite emit_nil_eq.
      apply verificar_alertas_high with (l := l) (p := p); auto; lia.
  - exists false, []. rewrite emit_nil_eq. now apply verificar_alertas_not_found.
Qed.

(* ===================================================================== *)
(** ** Estoque: the report *)
(* ===================================================================== *)

Section Report.
Import StM EstoqueOps.

Lemma emit_emit s a b : emit (emit s a) b = emit s (a ++ b).
Proof. unfold emit. cbn. now rewrite app_assoc. Qed.

Lemma imprimir_produtos_lines ls : forall s,
  (forall l, l ∈ ls -> is_Some (heap s !! l)) ->
  imprimir_produtos ls s = Some (Return tt, emit s (linhas_produtos (heap s) ls)).
Proof.
  induction ls as [| l ls IH]; intros s Hok.
  - cbn. now rewrite emit_nil_eq.
  - destruct (Hok l) as [p Hp]; [left |].
    cbn [imprimir_produtos]. unfold bind at 1, deref. rewrite Hp.
    unfold bind at 1, print.
    change {| heap := heap s; self := self s;
              stdout := stdout s ++ ["• " +:+ Produto.__str__ p] |}
      with (emit s [linha_produto p]).
    rewrite IH by (intros l' Hl'; apply Hok; now right).
    rewrite emit_emit. cbn. now rewrite Hp.
Qed.

Lemma relatorio_estoque_empty s :
  produtos (self s) = [] ->
  relatorio_estoque s
    = Some (Return tt,
            emit s (cabecalho (estoque_nome (self s)) ++ ["Nenhum produto cadastrado."])).
Proof.
  intros He. unfold relatorio_estoque, bind, get_self, print, emit. cbn.
  rewrite He. cbn. now rewrite <- !app_assoc.
Qed.

Lemma relatorio_estoque_lines s :
  registry_ok s ->
  produtos (self s) <> [] ->
  relatorio_estoque s
    = Some (Return tt,
            emit s (cabecalho (estoque_nome (self s))
                      ++ linhas_produtos (heap s) (produtos (self s))
                      ++ [regua +:+ PyStr.nl])).
Proof.
  intros Hok Hne. unfold relatorio_estoque.
  unfold bind at 1, get_self. unfold bind at 1, print.
  unfold bind at 1. unfold bind at 1.
  destruct (produtos (self s)) as [| l0 ls] eqn:E; [congruence |].
  unfold bind at 1.
  match goal with
  | |- context [imprimir_produtos ?ls ?st] =>
      rewrite (imprimir_produtos_lines ls st)
  end.
  - unfold emit, cabecalho. cbn. now rewrite <- !app_assoc.
  - intros l Hl. cbn. apply Hok. now rewrite E.
Qed.

Lemma relatorio_estoque_prints s :
  registry_ok s ->
  exists linhas, relatorio_estoque s = Some (Return tt, emit s linhas).
Proof.
  intros Hok. destruct (produtos (self s)) as [| l0 ls] eqn:E.
  - eexists. now apply relatorio_estoque_empty.
  - eexists. apply relatorio_estoque_lines; [exact Hok | congruence].
Qed.




End Report.

(* ===================================================================== *)
(** ** Estoque: stock-out, stock-in, alerts *)
(* ===================================================================== *)

Section Ledger.
Import StM EstoqueOps.




(** C6. For a name that no entry of the ledger has, [entrada_estoque] and
    [saida_estoque] both raise the "não encontrado" [ValueError], whatever
    the quantity, and leave the state as it was. *)
Theorem unregistered_not_found (s : State) (nome : string) (q : Z) :
  registry_ok s ->
  unregistered s nome ->
  entrada_estoque nome q s
    = Some (Raise (ValueError ("Produto '" +:+ nome +:+ "' não encontrado")), s)
  /\ saida_estoque nome q s
     = Some (Raise (ValueError ("Produto '" +:+ nome +:+ "' não encontrado")), s).
Proof.
  intros Hok Hun.
  assert (Hf : first_named (heap s) nome (produtos (self s)) = None)
    by now apply first_named_None.
  split; [now apply entrada_estoque_not_found | now apply saida_estoque_not_found].
Qed.

(** C7. For a name that resolves to the product [p], [verificar_alertas]
    returns [True] exactly when the stock of [p] is at most [ponto_pedido];
    for a name that no entry has it returns [False] and raises nothing. *)
Theorem verificar_alertas_spec (s : State) (pp : Z) (nome : string) :
  registry_ok s ->
  (forall l p,
     first_named (heap s) nome (produtos (self s)) = Some l ->
     heap s !! l = Some p ->
     exists b s', verificar_alertas pp nome s = Some (Return b, s')
                  /\ (b = true <-> Produto.quantidade_estoque p <= pp))
  /\ (unregistered s nome -> verificar_alertas pp nome s = Some (Return false, s)).
Proof.
  intros Hok. split.
  - intros l p Hf Hl.
    destruct (Z_le_gt_dec (Produto.quantidade_estoque p) pp) as [Hle | Hgt].
    + eexists true, _. split; [now apply verificar_alertas_low with l p |]. tauto.
    + eexists false, _.
      split; [apply verificar_alertas_high with l p; auto; lia |].
      split; [discriminate | lia].
  - intros Hun. apply verificar_alertas_not_found; [exact Hok |].
    now apply first_named_None.
Qed.



End Ledger.

(* ===================================================================== *)
(** ** Estoque: what a call may change *)
(* ===================================================================== *)

Section Frame.
Import StM EstoqueOps.

Lemma only_stock_of_same alvo s linhas : only_stock_of alvo s (emit s linhas).
Proof.
  repeat split; auto. intros l p _ Hl. exists p. now repeat split.
Qed.






End Frame.

(* ===================================================================== *)
(** ** Programs: the stock is never negative *)
(* ===================================================================== *)

Section Programs.
Import StM EstoqueOps.

(** Every statement that does not stop changes the state as [step] says. *)
Lemma exec_step c s s' : registry_ok s -> exec c s = Some s' -> step c s s'.
Proof.
  intros Hok. destruct c as [l n t cm cp pu | l | nome q | nome q | pp nome |];
    unfold exec.
  - unfold new_produto. destruct (heap s !! l) eqn:Hl; cbn; [discriminate |].
    intros [= <-]. now apply step_new.
  - unfold adicionar_produto, bind, append_produto, deref, print. cbn.
    destruct (heap s !! l) as [p |] eqn:Hl; cbn; [| discriminate].
    intros [= <-]. now apply (step_adicionar l p s [_]).
  - destruct (first_named (heap s) nome (produtos (self s))) as [l |] eqn:Hf.
    + destruct (first_named_Some _ _ _ _ Hf) as (_ & p & Hl & _).
      rewrite (entrada_estoque_found s Hok nome l p q Hf Hl). cbn.
      intros [= <-]. now apply step_entrada.
    + rewrite (entrada_estoque_not_found s Hok nome q Hf). cbn.
      intros [= <-]. now apply step_entrada_raise.
  - destruct (first_named (heap s) nome (produtos (self s))) as [l |] eqn:Hf.
    + destruct (first_named_Some _ _ _ _ Hf) as (_ & p & Hl & _).
      destruct (Z_le_gt_dec q (Produto.quantidade_estoque p)) as [Hle | Hgt].
      * rewrite (saida_estoque_enough s Hok nome l p q Hf Hl Hle). cbn.
        intros [= <-]. now apply step_saida.
      * rewrite (saida_estoque_short s Hok nome l p q Hf Hl) by lia. cbn.
        intros [= <-]. apply step_saida_raise.
    + rewrite (saida_estoque_not_found s Hok nome q Hf). cbn.
      intros [= <-]. apply step_saida_raise.
  - destruct (verificar_alertas_prints s pp nome Hok) as (b & linhas & Hv).
    rewrite Hv. cbn. intros [= <-]. apply step_alertas.
  - destruct (relatorio_estoque_prints s Hok) as (linhas & Hr).
    rewrite Hr. cbn. intros [= <-]. apply step_relatorio.
Qed.

(** A statement that makes sense does not stop. *)
Lemma exec_defined c s : registry_ok s -> call_ok s c -> is_Some (exec c s).
Proof.
  intros Hok. destruct c as [l n t cm cp pu | l | nome q | nome q | pp nome |];
    unfold exec, call_ok.
  - intros Hl. unfold new_produto. rewrite Hl. cbn. eauto.
  - intros [p Hl]. unfold adicionar_produto, bind, append_produto, deref, print. cbn.
    rewrite Hl. cbn. eauto.
  - intros _. destruct (first_named (heap s) nome (produtos (self s))) as [l |] eqn:Hf.
    + destruct (first_named_Some _ _ _ _ Hf) as (_ & p & Hl & _).
      rewrite (entrada_estoque_found s Hok nome l p q Hf Hl). cbn. eauto.
    + rewrite (entrada_estoque_not_found s Hok nome q Hf). cbn. eauto.
  - intros _. destruct (first_named (heap s) nome (produtos (self s))) as [l |] eqn:Hf.
    + destruct (first_named_Some _ _ _ _ Hf) as (_ & p & Hl & _).
      destruct (Z_le_gt_dec q (Produto.quantidade_estoque p)) as [Hle | Hgt].
      * rewrite (saida_estoque_enough s Hok nome l p q Hf Hl Hle). cbn. eauto.
      * rewrite (saida_estoque_short s Hok nome l p q Hf Hl) by lia. cbn. eauto.
    + rewrite (saida_estoque_not_found s Hok nome q Hf). cbn. eauto.
  - intros _. destruct (verificar_alertas_prints s pp nome Hok) as (b & linhas & Hv).
    rewrite Hv. cbn. eauto.
  - intros _. destruct (relatorio_estoque_prints s Hok) as (linhas & Hr).
    rewrite Hr. cbn. eauto.
Qed.

Lemma step_registry_ok c s s' : step c s s' -> registry_ok s -> registry_ok s'.
Proof.
  intros Hstep Hok. destruct Hstep; auto using registry_ok_emit, registry_ok_set_stock.
  - intros l' Hl'. cbn in *. destruct (decide (l = l')) as [<- | Hne].
    + rewrite lookup_insert_eq. eauto.
    + rewrite lookup_insert_ne by exact Hne. now apply Hok.
  - intros l' Hl'. cbn in *. apply elem_of_app in Hl' as [Hl' | Hl'].
    + now apply Hok.
    + apply list_elem_of_singleton in Hl' as ->. eauto.
Qed.

Lemma stock_nonneg_set_stock s l p q linhas :
  stock_nonneg s -> 0 <= q -> stock_nonneg (emit (set_stock s l p q) linhas).
Proof.
  intros Hs Hq l' p'. cbn. destruct (decide (l = l')) as [<- | Hne].
  - rewrite lookup_insert_eq. now intros [= <-].
  - rewrite lookup_insert_ne by exact Hne. apply Hs.
Qed.

(** A statement keeps every stock at 0 or more, unless it is an
    [entrada_estoque] of a negative quantity. *)
Lemma step_stock_nonneg c s s' :
  step c s s' ->
  entradas_nao_negativas [c] = true ->
  stock_nonneg s -> stock_nonneg s'.
Proof.
  intros Hstep Hc Hs. destruct Hstep; auto.
  - intros l' p'. cbn. destruct (decide (l = l')) as [<- | Hne].
    + rewrite lookup_insert_eq. intros [= <-]. cbn. lia.
    + rewrite lookup_insert_ne by exact Hne. apply Hs.
  - cbn in Hc. apply stock_nonneg_set_stock; [exact Hs |].
    match goal with Hp : heap s !! l = Some p |- _ => specialize (Hs l p Hp) end. lia.
  - apply stock_nonneg_set_stock; [exact Hs | lia].
Qed.

Lemma step_dom c s s' :
  step c s s' ->
  dom (heap s') = match c with
                  | NewProduto l _ _ _ _ _ => {[l]} ∪ dom (heap s)
                  | _ => dom (heap s)
                  end.
Proof.
  intros Hstep. destruct Hstep; cbn; auto.
  - apply dom_insert_L.
  - apply dom_insert_lookup_L; eauto.
  - apply dom_insert_lookup_L; eauto.
Qed.

Lemma run_invariant cs : forall s s',
  registry_ok s -> stock_nonneg s ->
  entradas_nao_negativas cs = true ->
  run cs s = Some s' ->
  registry_ok s' /\ stock_nonneg s'.
Proof.
  induction cs as [| c cs IH]; intros s s' Hok Hs Hcs; cbn.
  - intros [= <-]. now split.
  - destruct (exec c s) as [s1 |] eqn:Hex; [| discriminate].
    pose proof (exec_step c s s1 Hok Hex) as Hstep.
    assert (Hc : entradas_nao_negativas [c] = true /\ entradas_nao_negativas cs = true).
    { cbn in Hcs |- *. destruct c; auto. rewrite andb_true_r.
      now apply andb_true_iff in Hcs. }
    destruct Hc as [Hc Hcs'].
    apply IH; eauto using step_registry_ok, step_stock_nonneg.
Qed.

Lemma run_defined cs : forall s,
  registry_ok s ->
  well_formed (dom (heap s)) cs = true ->
  is_Some (run cs s).
Proof.
  induction cs as [| c cs IH]; intros s Hok Hwf; cbn; [eauto |].
  assert (Hc : call_ok s c).
  { destruct c; cbn in Hwf |- *; auto; apply andb_true_iff in Hwf as [Hl _];
      apply bool_decide_eq_true in Hl.
    - now apply not_elem_of_dom.
    - now apply elem_of_dom. }
  destruct (exec_defined c s Hok Hc) as [s1 Hex]. rewrite Hex.
  pose proof (exec_step c s s1 Hok Hex) as Hstep.
  apply IH; [eauto using step_registry_ok |].
  rewrite (step_dom c s s1 Hstep).
  destruct c; cbn in Hwf; auto; now apply andb_true_iff in Hwf as [_ Hwf].
Qed.

Lemma registry_ok_init h nome : registry_ok (Estoque__init__ h nome).
Proof. intros l Hl. inversion Hl. Qed.

(** C1 (as amended). A new [Produto] has a stock of 0, and a program that
    builds products and calls the methods of a new ledger, in any order and
    with any arguments but a negative quantity for [entrada_estoque], runs
    to its end and leaves no product with a negative stock. *)
Theorem stock_never_negative :
  (forall n t cm cp pu,
     Produto.quantidade_estoque (Produto.__init__ n t cm cp pu) = 0)
  /\ (forall nome_estoque cs,
        well_formed ∅ cs = true ->
        entradas_nao_negativas cs = true ->
        exists s', run cs (Estoque__init__ ∅ nome_estoque) = Some s'
                   /\ stock_nonneg s').
Proof.
  split; [reflexivity |]. intros nome_estoque cs Hwf Hcs.
  destruct (run_defined cs (Estoque__init__ ∅ nome_estoque)) as [s' Hrun].
  - apply registry_ok_init.
  - cbn. now rewrite dom_empty_L.
  - exists s'. split; [exact Hrun |].
    eapply run_invariant; eauto using registry_ok_init.
    intros l p. cbn. now rewrite lookup_empty.
Qed.

End Programs.

(* ===================================================================== *)
(** ** The scenario of the driver, checked *)
(* ===================================================================== *)

Section DemoFacts.
Import StM EstoqueOps Demo.

Lemma estado_ok : registry_ok estado.
Proof.
  intros l Hl. cbn in Hl.
  apply elem_of_cons in Hl as [-> | Hl]; [vm_compute; eauto |].
  apply elem_of_cons in Hl as [-> | Hl]; [vm_compute; eauto |].
  inversion Hl.
Qed.

Lemma estado_brahma :
  first_named (heap estado) "Brahma Lata 350ml" (produtos (self estado)) = Some 1%positive.
Proof. vm_compute. reflexivity. Qed.

Lemma estado_lookup : heap estado !! 1%positive = Some brahma_500.
Proof. vm_compute. reflexivity. Qed.

Lemma estado_skol : unregistered estado "Skol Lata 350ml".
Proof.
  intros l p Hl. cbn in Hl.
  apply elem_of_cons in Hl as [-> | Hl];
    [vm_compute; intros [= <-]; discriminate |].
  apply elem_of_cons in Hl as [-> | Hl];
    [vm_compute; intros [= <-]; discriminate |].
  inversion Hl.
Qed.

(** The driver's program ends in [estado], up to what was printed. *)
Example programa_estado :
  (fun s => (heap s, self s)) <$> run programa (Estoque__init__ ∅ "Distribuidora Salvador")
    = Some (heap estado, self estado).
Proof. vm_compute. reflexivity. Qed.

Lemma stock_never_negative_witness :
  exists s', run programa (Estoque__init__ ∅ "Distribuidora Salvador") = Some s'
             /\ stock_nonneg s'.
Proof.
  apply (proj2 stock_never_negative "Distribuidora Salvador" programa);
    vm_compute; reflexivity.
Defined.

(** The claim C1 fails as stated: after [entrada_estoque] of -5 on a new
    product, its stock is -5. *)
Lemma negative_entrada_negative_stock :
  well_formed ∅ programa_negativo = true
  /\ exists s' p,
       run programa_negativo (Estoque__init__ ∅ "Estoque Principal") = Some s'
       /\ 1%positive ∈ produtos (self s')
       /\ heap s' !! 1%positive = Some p
       /\ Produto.quantidade_estoque p = -5
       /\ ~ stock_nonneg s'.
Proof.
  split; [vm_compute; reflexivity |].
  eexists _, _. split; [vm_compute; reflexivity |].
  split; [cbn; left |].
  split; [vm_compute; reflexivity |].
  split; [reflexivity |].
  intros Hs. specialize (Hs 1%positive _ eq_refl). cbn in Hs. lia.
Qed.


Lemma unregistered_not_found_witness :
  entrada_estoque "Skol Lata 350ml" 10 estado
    = Some (Raise (ValueError "Produto 'Skol Lata 350ml' não encontrado"), estado)
  /\ saida_estoque "Skol Lata 350ml" 10 estado
     = Some (Raise (ValueError "Produto 'Skol Lata 350ml' não encontrado"), estado).
Proof.
  exact (unregistered_not_found estado "Skol Lata 350ml" 10 estado_ok estado_skol).
Defined.

Lemma verificar_alertas_spec_witness :
  (exists b s', verificar_alertas 320 "Brahma Lata 350ml" estado = Some (Return b, s')
                /\ (b = true <-> 500 <= 320))
  /\ verificar_alertas 320 "Skol Lata 350ml" estado = Some (Return false, estado).
Proof.
  split.
  - exact (proj1 (verificar_alertas_spec estado 320 "Brahma Lata 350ml" estado_ok)
             1%positive brahma_500 estado_brahma estado_lookup).
  - exact (proj2 (verificar_alertas_spec estado 320 "Skol Lata 350ml" estado_ok)
             estado_skol).
Defined.




End DemoFacts.


(* ===================================================================== *)
(** ** CalculadoraCusto: where the three functions return *)
(* ===================================================================== *)

Section CalculadoraDomain.
Import PyFloat CalculadoraCusto.

Lemma math_ceil_returns x r : math_ceil x = Return r -> is_finite x = true.
Proof. destruct x; cbn; congruence || discriminate. Qed.

Lemma math_sqrt_finite x : is_finite (sqrt x) = true -> math_sqrt x = Return (sqrt x).
Proof.
  destruct x as [s | s | | s m e]; try destruct s; cbn; try discriminate; reflexivity.
Qed.

(** X1. Whatever the sign of its arguments, [calcular_estoque_seguranca]
    returns exactly when the binary64 product
    [desvio_padrao * float(dias_seguranca) * demanda_media_diaria] is finite,
    and what it returns is the ceiling of that product. *)
Theorem calcular_estoque_seguranca_domain (d : float) (n : Z) (a : float) :
  returns (calcular_estoque_seguranca d n a) = is_finite (estoque_seguranca_float d n a)
  /\ forall r, calcular_estoque_seguranca d n a = Return r ->
               is_ceiling r (to_Q (estoque_seguranca_float d n a)).
Proof.
  destruct (is_finite (estoque_seguranca_float d n a)) eqn:Hfin.
  - pose proof Hfin as Hfin'. unfold estoque_seguranca_float in Hfin'.
    destruct (is_finite_mul _ _ Hfin') as [Hfin1 _].
    destruct (is_finite_mul _ _ Hfin1) as [_ Hfn].
    destruct (math_ceil_finite _ Hfin) as (r & Hr & Hceil & _).
    assert (Hcall : calcular_estoque_seguranca d n a = Return r).
    { unfold calcular_estoque_seguranca. rewrite (of_int_finite n Hfn). exact Hr. }
    rewrite Hcall. split; [reflexivity |]. now intros r' [= <-].
  - pose proof (calcular_estoque_seguranca_raises d n a Hfin) as Hr.
    split; [exact Hr |]. intros r Hcall. rewrite Hcall in Hr. discriminate Hr.
Qed.

(** X2. Whatever the sign of its arguments, [determinar_ponto_pedido]
    returns exactly when the binary64 value
    [float(lead_time_dias) * demanda_media_diaria + float(estoque_seguranca)]
    is finite, and what it returns is the ceiling of that value. *)
Theorem determinar_ponto_pedido_domain (L : Z) (D : float) (S : Z) :
  returns (determinar_ponto_pedido L D S) = is_finite (ponto_pedido_float L D S)
  /\ forall r, determinar_ponto_pedido L D S = Return r ->
               is_ceiling r (to_Q (ponto_pedido_float L D S)).
Proof.
  destruct (is_finite (ponto_pedido_float L D S)) eqn:Hfin.
  - pose proof Hfin as Hfin'. unfold ponto_pedido_float in Hfin'.
    destruct (is_finite_add _ _ Hfin') as [Hfin1 HfS].
    destruct (is_finite_mul _ _ Hfin1) as [HfL _].
    destruct (math_ceil_finite _ Hfin) as (r & Hr & Hceil & _).
    assert (Hcall : determinar_ponto_pedido L D S = Return r).
    { unfold determinar_ponto_pedido.
      rewrite (of_int_finite L HfL). cbn [Py.bind].
      rewrite (of_int_finite S HfS). exact Hr. }
    rewrite Hcall. split; [reflexivity |]. now intros r' [= <-].
  - pose proof (determinar_ponto_pedido_raises L D S Hfin) as Hr.
    split; [exact Hr |]. intros r Hcall. rewrite Hcall in Hr. discriminate Hr.
Qed.

(** X3. Whatever the sign of its arguments, [calcular_lote_economico]
    returns exactly when [custo_manutencao] is not zero and the binary64
    value [sqrt((2 * demanda_anual * custo_pedido) / custo_manutencao)] is
    finite; what it returns is the ceiling of that value and is never
    negative. *)
Theorem calcular_lote_economico_domain (D c h : float) :
  returns (calcular_lote_economico D c h)
    = negb (eq_zero h) && is_finite (eoq_float D c h)
  /\ forall r, calcular_lote_economico D c h = Return r ->
               0 <= r /\ is_ceiling r (to_Q (eoq_float D c h)).
Proof.
  destruct (eq_zero h) eqn:Hz.
  - rewrite (calcular_lote_economico_zero D c h Hz). cbn.
    split; [reflexivity | discriminate].
  - cbn [negb andb].
    destruct (is_finite (eoq_float D c h)) eqn:Hfin.
    + destruct (math_ceil_finite _ Hfin) as (r & Hr & Hceil & Hpos).
      assert (Hcall : calcular_lote_economico D c h = Return r).
      { unfold calcular_lote_economico, truediv. rewrite Hz, of_int_2. cbn [Py.bind].
        unfold eoq_float in Hfin. rewrite (math_sqrt_finite _ Hfin). exact Hr. }
      rewrite Hcall. split; [reflexivity |]. intros r' [= <-].
      split; [apply Hpos, sqrt_not_negative | exact Hceil].
    + pose proof (calcular_lote_economico_raises D c h Hfin) as Hr.
      split; [exact Hr |]. intros r Hcall. rewrite Hcall in Hr. discriminate Hr.
Qed.

Lemma round_int_2 : round_int 2 = S754_finite false 4503599627370496 (-51).
Proof. vm_compute. reflexivity. Qed.

(** X4. With no demand the economic lot is 0: for a [demanda_anual] of zero
    (0.0 or -0.0), a finite [custo_pedido] and a [custo_manutencao] that is
    neither zero nor NaN, [calcular_lote_economico] returns 0. *)
Theorem calcular_lote_economico_sem_demanda (D c h : float) :
  eq_zero D = true -> is_finite c = true ->
  eq_zero h = false -> h <> S754_nan ->
  calcular_lote_economico D c h = Return 0.
Proof.
  intros HD Hc Hh Hnan.
  unfold calcular_lote_economico, truediv. rewrite Hh, of_int_2. cbn [Py.bind].
  rewrite round_int_2.
  destruct D as [sD | sD | | sD mD eD]; try destruct sD; try discriminate HD;
    destruct c as [sc | sc | | sc mc ec]; try discriminate Hc;
    destruct h as [sh | sh | | sh mh eh]; try discriminate Hh; try congruence;
    try destruct sc; try destruct sh; reflexivity.
Qed.

(** X5. With no days of cover the safety stock is 0 when the two float
    arguments are finite, of either sign; when one of them is infinite or
    NaN, [0 * inf] is NaN and [math.ceil] raises its [ValueError]. *)
Theorem calcular_estoque_seguranca_sem_dias (d a : float) :
  calcular_estoque_seguranca d 0 a
    = if is_finite d && is_finite a then Return 0
      else Raise (ValueError "cannot convert float NaN to integer").
Proof.
  unfold calcular_estoque_seguranca.
  change (of_int 0) with (Return (S754_zero false)). cbn [Py.bind].
  destruct d as [sd | sd | | sd md ed], a as [sa | sa | | sa ma ea];
    try destruct sd; try destruct sa; reflexivity.
Qed.

End CalculadoraDomain.

(* ===================================================================== *)
(** ** Estoque: lookup, registration and stock-in *)
(* ===================================================================== *)

Section LedgerMore.
Import StM EstoqueOps.

Lemma first_named_split h nome ls l :
  first_named h nome ls = Some l ->
  exists antes depois,
    ls = (antes ++ l :: depois)%list
    /\ forall l' p', l' ∈ antes -> h !! l' = Some p' -> Produto.nome p' <> nome.
Proof.
  induction ls as [| l0 ls IH]; cbn; [discriminate |].
  destruct (h !! l0) as [p0 |] eqn:E0.
  - destruct (String.eqb (Produto.nome p0) nome) eqn:En.
    + intros [= <-]. exists [], ls. split; [reflexivity |].
      intros l' p' Hin. inversion Hin.
    + intros H. destruct (IH H) as (antes & depois & -> & Hantes).
      exists (l0 :: antes), depois. split; [reflexivity |].
      intros l' p' Hin Hl'. apply elem_of_cons in Hin as [-> | Hin].
      * rewrite E0 in Hl'. injection Hl' as <-. now apply String.eqb_neq.
      * now apply (Hantes l' p').
  - intros H. destruct (IH H) as (antes & depois & -> & Hantes).
    exists (l0 :: antes), depois. split; [reflexivity |].
    intros l' p' Hin Hl'. apply elem_of_cons in Hin as [-> | Hin]; [congruence |].
    now apply (Hantes l' p').
Qed.

Lemma first_named_app h nome ls ls' :
  first_named h nome (ls ++ ls')
    = match first_named h nome ls with
      | Some l => Some l
      | None => first_named h nome ls'
      end.
Proof.
  induction ls as [| l0 ls IH]; cbn; [reflexivity |].
  destruct (h !! l0) as [p0 |]; [| exact IH].
  destruct (String.eqb (Produto.nome p0) nome); [reflexivity | exact IH].
Qed.

Lemma first_named_insert_fresh h nome ls l p :
  l ∉ ls ->
  first_named (<[l := p]> h) nome ls = first_named h nome ls.
Proof.
  induction ls as [| l0 ls IH]; intros Hl; cbn; [reflexivity |].
  apply not_elem_of_cons in Hl as [Hne Hl].
  rewrite lookup_insert_ne by exact Hne. now rewrite IH.
Qed.

(** X6. In a ledger whose entries are products, [_buscar_produto] changes
    nothing and returns the first entry whose name is the given one: the
    entries before it have other names. It returns [None] exactly when no
    entry has the name. *)
Theorem buscar_produto_first_match (s : State) (nome : string) :
  registry_ok s ->
  exists r,
    _buscar_produto nome s = Some (Return r, s)
    /\ match r with
       | Some l =>
           exists antes depois p,
             produtos (self s) = (antes ++ l :: depois)%list
             /\ heap s !! l = Some p /\ Produto.nome p = nome
             /\ forall l' p', l' ∈ antes -> heap s !! l' = Some p' ->
                              Produto.nome p' <> nome
       | None => unregistered s nome
       end.
Proof.
  intros Hok. eexists. split; [now apply _buscar_produto_first_named |].
  destruct (first_named (heap s) nome (produtos (self s))) as [l |] eqn:Hf.
  - destruct (first_named_Some _ _ _ _ Hf) as (_ & p & Hl & Hn).
    destruct (first_named_split _ _ _ _ Hf) as (antes & depois & Hs & Hantes).
    now exists antes, depois, p.
  - exact (proj1 (first_named_None _ _ _) Hf).
Qed.



Lemma adicionar_produto_run s l p :
  heap s !! l = Some p ->
  adicionar_produto l s
    = Some (Return tt,
            emit (append_entry s l)
              ["✓ Produto '" +:+ Produto.nome p +:+ "' adicionado ao estoque"]).
Proof.
  intros Hl. unfold adicionar_produto, bind, append_produto, deref, print. cbn.
  now rewrite Hl.
Qed.

(** X9. [adicionar_produto] never raises and checks nothing: it puts the
    product at the end of the list, whatever names are there already, and
    prints its line. A name that resolved to an entry before still resolves
    to that entry, so a second product under a used name is never found; a
    name that no entry had resolves to the new product when it is its name. *)
Theorem adicionar_produto_lookup (s : State) (l : loc) (p : Produto.t) (nome : string) :
  registry_ok s ->
  heap s !! l = Some p ->
  exists s',
    adicionar_produto l s = Some (Return tt, s')
    /\ heap s' = heap s
    /\ produtos (self s') = (produtos (self s) ++ [l])%list
    /\ estoque_nome (self s') = estoque_nome (self s)
    /\ registry_ok s'
    /\ _buscar_produto nome s'
       = Some (Return (match first_named (heap s) nome (produtos (self s)) with
                       | Some l0 => Some l0
                       | None => if String.eqb (Produto.nome p) nome then Some l else None
                       end), s').
Proof.
  intros Hok Hl. eexists. split; [exact (adicionar_produto_run s l p Hl) |].
  assert (Hok' : registry_ok (emit (append_entry s l)
                   ["✓ Produto '" +:+ Produto.nome p +:+ "' adicionado ao estoque"])).
  { intros l' Hl'. cbn in *. apply elem_of_app in Hl' as [Hl' | Hl'].
    - now apply Hok.
    - apply list_elem_of_singleton in Hl' as ->. eauto. }
  repeat split; [exact Hok' |].
  rewrite (_buscar_produto_first_named nome _ Hok'). cbn [heap self emit append_entry produtos].
  rewrite first_named_app. cbn [first_named]. now rewrite Hl.
Qed.

End LedgerMore.

(* ===================================================================== *)
(** ** Programs: what never changes *)
(* ===================================================================== *)

Section ProgramsMore.
Import StM EstoqueOps.

Lemma same_but_stock_refl p : same_but_stock p p.
Proof. now repeat split. Qed.

Lemma same_but_stock_trans p1 p2 p3 :
  same_but_stock p1 p2 -> same_but_stock p2 p3 -> same_but_stock p1 p3.
Proof.
  intros (H1 & H2 & H3 & H4 & H5) (G1 & G2 & G3 & G4 & G5).
  repeat split; congruence.
Qed.

Lemma extends_refl s : extends s s.
Proof.
  repeat split; try reflexivity. intros l p Hl. exists p.
  split; [exact Hl | apply same_but_stock_refl].
Qed.

Lemma extends_trans s1 s2 s3 : extends s1 s2 -> extends s2 s3 -> extends s1 s3.
Proof.
  intros (Hn & Hp & Hh & Ho) (Hn' & Hp' & Hh' & Ho').
  split; [congruence |]. split; [now transitivity (produtos (self s2)) |].
  split; [| now transitivity (stdout s2)].
  intros l p Hl. destruct (Hh l p Hl) as (p2 & Hl2 & Hs2).
  destruct (Hh' l p2 Hl2) as (p3 & Hl3 & Hs3).
  exists p3. split; [exact Hl3 | now apply same_but_stock_trans with p2].
Qed.

Lemma extends_emit s linhas : extends s (emit s linhas).
Proof.
  repeat split; try reflexivity.
  - intros l p Hl. exists p. split; [exact Hl | apply same_but_stock_refl].
  - cbn. now apply prefix_app_r.
Qed.

Lemma extends_set_stock s l p q :
  heap s !! l = Some p -> extends s (set_stock s l p q).
Proof.
  intros Hl. repeat split; try reflexivity.
  intros l0 p0 Hl0. cbn. destruct (decide (l = l0)) as [<- | Hne].
  - rewrite lookup_insert_eq. rewrite Hl in Hl0. injection Hl0 as <-.
    eexists. split; [reflexivity | now repeat split].
  - rewrite lookup_insert_ne by exact Hne. exists p0.
    split; [exact Hl0 | apply same_but_stock_refl].
Qed.

Lemma step_extends c s s' : step c s s' -> extends s s'.
Proof.
  intros Hstep.
  destruct Hstep as [l n t cm cp pu s Hl | l p s linhas Hl
                    | nome q l p s linhas Hf Hl | nome q s Hf
                    | nome q l p s linhas Hf Hl Hq | nome q s
                    | pp nome s linhas | s linhas].
  - repeat split; try reflexivity.
    intros l0 p0 Hl0. cbn. exists p0. split; [| apply same_but_stock_refl].
    rewrite lookup_insert_ne; [exact Hl0 | congruence].
  - eapply extends_trans; [| apply extends_emit].
    repeat split; try reflexivity.
    + cbn. now apply prefix_app_r.
    + intros l0 p0 Hl0. exists p0. split; [exact Hl0 | apply same_but_stock_refl].
  - eapply extends_trans; [| apply extends_emit]. now apply extends_set_stock.
  - apply extends_refl.
  - eapply extends_trans; [| apply extends_emit]. now apply extends_set_stock.
  - apply extends_refl.
  - apply extends_emit.
  - apply extends_emit.
Qed.

(** X10. A program never removes or reorders an entry of the ledger, never
    renames the ledger, never deletes a product and never changes the name,
    category, costs or price of one; and what was printed stays printed. *)
Theorem run_extends (cs : list call) (s s' : State) :
  registry_ok s ->
  run cs s = Some s' ->
  extends s s'.
Proof.
  revert s. induction cs as [| c cs IH]; intros s Hok; cbn.
  - intros [= <-]. apply extends_refl.
  - destruct (exec c s) as [s1 |] eqn:Hex; [| discriminate].
    pose proof (exec_step c s s1 Hok Hex) as Hstep. intros Hrun.
    apply extends_trans with s1; [exact (step_extends c s s1 Hstep) |].
    apply IH; [now apply (step_registry_ok c s s1) | exact Hrun].
Qed.

Lemma registry_not_fresh s l :
  registry_ok s -> heap s !! l = None -> l ∉ produtos (self s).
Proof. intros Hok Hl Hin. destruct (Hok l Hin) as [p Hp]. congruence. Qed.

Lemma step_resolution c s s' nome l :
  step c s s' -> registry_ok s ->
  first_named (heap s) nome (produtos (self s)) = Some l ->
  first_named (heap s') nome (produtos (self s')) = Some l.
Proof.
  intros Hstep Hok Hf.
  destruct Hstep as [l0 n t cm cp pu s Hl0 | l0 p0 s linhas Hl0
                    | nome0 q l0 p0 s linhas Hf0 Hl0 | nome0 q s Hf0
                    | nome0 q l0 p0 s linhas Hf0 Hl0 Hq | nome0 q s
                    | pp nome0 s linhas | s linhas]; cbn; auto.
  - rewrite first_named_insert_fresh; [exact Hf | now apply registry_not_fresh].
  - now rewrite first_named_app, Hf.
  - now rewrite first_named_set_stock.
  - now rewrite first_named_set_stock.
Qed.

(** X11. Once a name resolves to a product it resolves to that product for
    good: no program, whatever products it registers afterwards under that
    name or another, changes what [_buscar_produto] finds for it. *)
Theorem run_resolution (cs : list call) (s s' : State) (nome : string) (l : loc) :
  registry_ok s ->
  _buscar_produto nome s = Some (Return (Some l), s) ->
  run cs s = Some s' ->
  _buscar_produto nome s' = Some (Return (Some l), s').
Proof.
  intros Hok Hb Hrun.
  rewrite (_buscar_produto_first_named nome s Hok) in Hb.
  assert (Hf : first_named (heap s) nome (produtos (self s)) = Some l) by congruence.
  clear Hb. revert s Hok Hf Hrun.
  induction cs as [| c cs IH]; intros s Hok Hf; cbn [run].
  - intros Heq. injection Heq as Heq. subst s'.
    now rewrite (_buscar_produto_first_named nome s Hok), Hf.
  - destruct (exec c s) as [s1 |] eqn:Hex; [| discriminate].
    pose proof (exec_step c s s1 Hok Hex) as Hstep.
    apply IH; [now apply (step_registry_ok c s s1) |].
    now apply (step_resolution c s s1).
Qed.

Lemma step_shadowed c s s' l l' p' :
  step c s s' -> registry_ok s ->
  heap s !! l' = Some p' ->
  first_named (heap s) (Produto.nome p') (produtos (self s)) = Some l ->
  l <> l' ->
  heap s' !! l' = Some p'.
Proof.
  intros Hstep Hok Hl' Hf Hne.
  assert (Htarget : forall nome0 l0,
             first_named (heap s) nome0 (produtos (self s)) = Some l0 -> l0 <> l').
  { intros nome0 l0 Hf0 ->.
    destruct (first_named_Some _ _ _ _ Hf0) as (_ & p0 & Hp0 & Hnome).
    rewrite Hl' in Hp0. injection Hp0 as <-. subst nome0. congruence. }
  destruct Hstep as [l0 n t cm cp pu s Hl0 | l0 p0 s linhas Hl0
                    | nome0 q l0 p0 s linhas Hf0 Hl0 | nome0 q s Hf0
                    | nome0 q l0 p0 s linhas Hf0 Hl0 Hq | nome0 q s
                    | pp nome0 s linhas | s linhas]; cbn; auto.
  - rewrite lookup_insert_ne; [exact Hl' | congruence].
  - rewrite lookup_insert_ne; [exact Hl' | now apply (Htarget nome0)].
  - rewrite lookup_insert_ne; [exact Hl' | now apply (Htarget nome0)].
Qed.

(** X12. A product whose name resolves to another product is out of reach:
    no program changes its stock, or anything else of it. So of two products
    registered under one name only the first ever moves. *)
Theorem shadowed_product_never_changes (cs : list call) (s s' : State)
    (l l' : loc) (p' : Produto.t) :
  registry_ok s ->
  heap s !! l' = Some p' ->
  first_named (heap s) (Produto.nome p') (produtos (self s)) = Some l ->
  l <> l' ->
  run cs s = Some s' ->
  heap s' !! l' = Some p'.
Proof.
  intros Hok Hl' Hf Hne. revert s Hok Hl' Hf.
  induction cs as [| c cs IH]; intros s Hok Hl' Hf; cbn.
  - intros Heq. injection Heq as Heq. now subst s'.
  - destruct (exec c s) as [s1 |] eqn:Hex; [| discriminate].
    pose proof (exec_step c s s1 Hok Hex) as Hstep.
    apply IH.
    + now apply (step_registry_ok c s s1).
    + now apply (step_shadowed c s s1 l l' p').
    + now apply (step_resolution c s s1).
Qed.

End ProgramsMore.

(* ===================================================================== *)
(** ** Estoque: calls one after the other *)
(* ===================================================================== *)

Section Composition.
Import StM EstoqueOps.





(** X16. [verificar_alertas] prints its alert line exactly when it returns
    [True], and prints nothing when it returns [False], be it for a stock
    above the reorder point or for a name that no entry has. *)
Theorem verificar_alertas_output (s s' : State) (pp : Z) (nome : string) (b : bool) :
  registry_ok s ->
  verificar_alertas pp nome s = Some (Return b, s') ->
  heap s' = heap s /\ self s' = self s
  /\ stdout s' = (stdout s ++ if b then [linha_alerta nome] else [])%list.
Proof.
  intros Hok.
  destruct (first_named (heap s) nome (produtos (self s))) as [l |] eqn:Hf.
  - destruct (first_named_Some _ _ _ _ Hf) as (_ & p & Hl & _).
    destruct (Z_le_gt_dec (Produto.quantidade_estoque p) pp) as [Hle | Hgt].
    + rewrite (verificar_alertas_low s Hok pp nome l p Hf Hl Hle).
      intros [= <- <-]. now repeat split.
    + rewrite (verificar_alertas_high s Hok pp nome l p Hf Hl) by lia.
      intros [= <- <-]. repeat split. now rewrite app_nil_r.
  - rewrite (verificar_alertas_not_found s Hok pp nome Hf).
    intros [= <- <-]. repeat split. now rewrite app_nil_r.
Qed.

(** A ledger made by [Estoque()] is called "Estoque Principal" and has
    no entry: every stock-in and stock-out raises the "não encontrado"
    [ValueError], every alert check returns [False], and the report is the
    heading and the line "Nenhum produto cadastrado.". *)
Lemma new_ledger_is_empty (h : gmap loc Produto.t) (nome : string) (q pp : Z) :
  estoque_nome (self (Estoque__init__default h)) = "Estoque Principal"
  /\ entrada_estoque nome q (Estoque__init__default h)
     = Some (Raise (ValueError (msg_nao_encontrado nome)), Estoque__init__default h)
  /\ saida_estoque nome q (Estoque__init__default h)
     = Some (Raise (ValueError (msg_nao_encontrado nome)), Estoque__init__default h)
  /\ verificar_alertas pp nome (Estoque__init__default h)
     = Some (Return false, Estoque__init__default h)
  /\ relatorio_estoque (Estoque__init__default h)
     = Some (Return tt,
             emit (Estoque__init__default h)
               (cabecalho "Estoque Principal" ++ ["Nenhum produto cadastrado."])).
Proof. repeat split. Qed.

End Composition.

(* ===================================================================== *)
(** ** Binary64 arithmetic: rounding makes no NaN *)
(* ===================================================================== *)

Section NoNaN.
Import PyFloat CalculadoraCusto.

Lemma shr_1_nonneg mrs : 0 <= shr_m mrs -> 0 <= shr_m (shr_1 mrs).
Proof.
  destruct mrs as [m r t]. cbn.
  destruct m as [| q | q]; try destruct q; cbn; lia.
Qed.

Lemma iter_pos_shr_1_nonneg n : forall mrs,
  0 <= shr_m mrs -> 0 <= shr_m (SpecFloat.iter_pos shr_1 n mrs).
Proof.
  induction n as [n IH | n IH |]; intros mrs Hm; cbn.
  - apply IH, IH, shr_1_nonneg, Hm.
  - apply IH, IH, Hm.
  - apply shr_1_nonneg, Hm.
Qed.

Lemma shr_fexp_nonneg p e m ex l :
  0 <= m -> 0 <= shr_m (fst (shr_fexp p e m ex l)).
Proof.
  intros Hm. unfold shr_fexp, shr.
  assert (H0 : 0 <= shr_m (shr_record_of_loc m l))
    by (destruct l as [| []]; exact Hm).
  destruct (fexp p e (Zdigits2 m + ex) - ex); cbn [fst]; auto.
  now apply iter_pos_shr_1_nonneg.
Qed.

Lemma round_nearest_even_nonneg m l : 0 <= m -> 0 <= round_nearest_even m l.
Proof.
  intros Hm. unfold round_nearest_even.
  destruct l as [| []]; try destruct (Z.even m); lia.
Qed.

(** Rounding a mantissa that is not negative gives a zero, a finite number
    or an infinity, with the sign it was given. *)
Lemma binary_round_aux_has_sign p e sx m ex l :
  0 <= m -> has_sign sx (binary_round_aux p e sx m ex l) = true.
Proof.
  intros Hm. unfold binary_round_aux.
  pose proof (shr_fexp_nonneg p e m ex l Hm) as H1.
  destruct (shr_fexp p e m ex l) as [mrs' e']. cbn [fst] in H1.
  pose proof (shr_fexp_nonneg p e _ e' loc_Exact
                (round_nearest_even_nonneg _ (loc_of_shr_record mrs') H1)) as H2.
  destruct (shr_fexp p e _ e' loc_Exact) as [mrs'' e'']. cbn [fst] in H2.
  destruct (shr_m mrs'') as [| q | q]; [| | lia].
  - cbn. apply eqb_reflx.
  - destruct (e'' <=? e - p); cbn; apply eqb_reflx.
Qed.

Lemma binary_round_has_sign p e sx m ex :
  has_sign sx (binary_round p e sx m ex) = true.
Proof.
  unfold binary_round. destruct (shl_align m ex _) as [mz ez].
  apply binary_round_aux_has_sign. lia.
Qed.

Lemma round_int_has_sign n : 0 <= n -> has_sign false (round_int n) = true.
Proof.
  intros Hn. unfold round_int, binary_normalize.
  destruct n as [| q | q]; [reflexivity | apply binary_round_has_sign | lia].
Qed.

Lemma has_sign_cases sx x :
  has_sign sx x = true ->
  x = S754_zero sx \/ x = S754_infinity sx \/ exists m e, x = S754_finite sx m e.
Proof.
  destruct x as [s | s | | s m e]; cbn; try discriminate;
    intros H; apply eqb_prop in H; subst; eauto.
Qed.

Lemma mul_finite_pos x y :
  has_sign false x = true -> finite_pos y = true -> has_sign false (mul x y) = true.
Proof.
  intros Hx Hy. destruct y as [sy | sy | | sy my ey]; try discriminate Hy.
  destruct sy; [discriminate Hy |].
  destruct (has_sign_cases _ _ Hx) as [-> | [-> | (m & e & ->)]]; try reflexivity.
  unfold mul, SFmul. cbn [xorb]. apply binary_round_aux_has_sign. lia.
Qed.

Lemma mul_finite_nonneg x y :
  finite_nonneg x = true -> finite_nonneg y = true -> has_sign false (mul x y) = true
  \/ exists s, mul x y = S754_zero s.
Proof.
  intros Hx Hy.
  destruct x as [sx | sx | | sx mx ex]; try discriminate Hx;
    destruct y as [sy | sy | | sy my ey]; try discriminate Hy;
    try (right; eexists; reflexivity).
  destruct sx, sy; try discriminate. left.
  unfold mul, SFmul. cbn [xorb]. apply binary_round_aux_has_sign. lia.
Qed.

Lemma div_core_nonneg p e m1 e1 m2 e2 :
  0 <= fst (fst (SFdiv_core_binary p e (Zpos m1) e1 (Zpos m2) e2)).
Proof.
  unfold SFdiv_core_binary.
  set (sh := e1 - e2 - _).
  set (m' := match sh with Z0 => Zpos m1 | Zpos _ => Z.shiftl (Zpos m1) sh | Zneg _ => 0 end).
  assert (Hm' : 0 <= m').
  { subst m'. destruct sh; try lia. apply Z.shiftl_nonneg. lia. }
  pose proof (Z.div_pos m' (Zpos m2) Hm' ltac:(lia)) as Hq.
  unfold Z.div in Hq. destruct (Z.div_eucl m' (Zpos m2)) as [q r]. exact Hq.
Qed.

Lemma div_has_sign x sy my ey :
  has_sign false x = true ->
  has_sign sy (div x (S754_finite sy my ey)) = true.
Proof.
  intros Hx.
  destruct (has_sign_cases _ _ Hx) as [-> | [-> | (m & e & ->)]];
    try (cbn; destruct sy; reflexivity).
  unfold div, SFdiv.
  pose proof (div_core_nonneg prec emax m e my ey) as Hq.
  destruct (SFdiv_core_binary prec emax (Zpos m) e (Zpos my) ey) as [[mz ez] lz].
  cbn [fst] in Hq. cbn [xorb]. now apply binary_round_aux_has_sign.
Qed.

Lemma sqrt_core_nonneg p e m ex :
  0 <= fst (fst (SFsqrt_core_binary p e (Zpos m) ex)).
Proof.
  unfold SFsqrt_core_binary.
  set (sh := ex - 2 * _).
  set (m' := match sh with Z0 => Zpos m | Zpos _ => Z.shiftl (Zpos m) sh | Zneg _ => 0 end).
  assert (Hm' : 0 <= m').
  { subst m'. destruct sh; try lia. apply Z.shiftl_nonneg. lia. }
  pose proof (Z.sqrtrem_spec m' Hm') as Hs.
  destruct (Z.sqrtrem m') as [q r]. cbn [fst]. lia.
Qed.

Lemma sqrt_has_sign x :
  has_sign false x = true -> has_sign false (sqrt x) = true \/ exists s, sqrt x = S754_zero s.
Proof.
  intros Hx.
  destruct (has_sign_cases _ _ Hx) as [-> | [-> | (m & e & ->)]];
    [right; eexists; reflexivity | left; reflexivity | left].
  unfold sqrt, SFsqrt.
  pose proof (sqrt_core_nonneg prec emax m e) as Hq.
  destruct (SFsqrt_core_binary prec emax (Zpos m) e) as [[mz ez] lz].
  cbn [fst] in Hq. now apply binary_round_aux_has_sign.
Qed.

Lemma add_has_sign x y :
  has_sign false x = true -> has_sign false y = true -> has_sign false (add x y) = true.
Proof.
  intros Hx Hy.
  destruct (has_sign_cases _ _ Hx) as [-> | [-> | (mx & ex & ->)]];
    destruct (has_sign_cases _ _ Hy) as [-> | [-> | (my & ey & ->)]];
    try reflexivity.
  unfold add, SFadd. cbn [cond_Zopp Z.add binary_normalize].
  apply binary_round_has_sign.
Qed.

Lemma math_ceil_has_sign x :
  has_sign false x = true ->
  (exists r, math_ceil x = Return r /\ 0 <= r)
  \/ math_ceil x = Raise (OverflowError "cannot convert float infinity to integer").
Proof.
  intros Hx.
  destruct (has_sign_cases _ _ Hx) as [-> | [-> | (m & e & ->)]].
  - left. exists 0. now split.
  - now right.
  - left. destruct (math_ceil_finite (S754_finite false m e) eq_refl) as (r & Hr & _ & Hpos).
    exists r. split; [exact Hr | now apply Hpos].
Qed.

End NoNaN.

(* ===================================================================== *)
(** ** CalculadoraCusto: which exception *)
(* ===================================================================== *)

Section CalculadoraFailure.
Import PyFloat CalculadoraCusto.

Lemma has_sign_zero_or_positive x : has_sign false x = true -> zero_or_positive x = true.
Proof.
  intros Hx. destruct (has_sign_cases _ _ Hx) as [-> | [-> | (m & e & ->)]]; reflexivity.
Qed.

Lemma finite_nonneg_zero_or_positive x : finite_nonneg x = true -> zero_or_positive x = true.
Proof. destruct x as [s | s | | s m e]; try destruct s; cbn; congruence. Qed.

Lemma zp_mul_pos x y :
  zero_or_positive x = true -> finite_pos y = true -> zero_or_positive (mul x y) = true.
Proof.
  intros Hx Hy. destruct y as [sy | sy | | sy my ey]; try discriminate Hy.
  destruct sy; [discriminate Hy |].
  destruct x as [sx | sx | | sx mx ex]; try destruct sx; try discriminate Hx;
    try reflexivity.
  apply has_sign_zero_or_positive.
  unfold mul, SFmul. cbn [xorb]. apply binary_round_aux_has_sign. lia.
Qed.

Lemma zp_mul_finite x y :
  finite_nonneg x = true -> finite_nonneg y = true -> zero_or_positive (mul x y) = true.
Proof.
  intros Hx Hy. destruct (mul_finite_nonneg x y Hx Hy) as [H | [s ->]];
    [now apply has_sign_zero_or_positive | reflexivity].
Qed.

Lemma zp_div_pos x y :
  zero_or_positive x = true -> finite_pos y = true -> zero_or_positive (div x y) = true.
Proof.
  intros Hx Hy. destruct y as [sy | sy | | sy my ey]; try discriminate Hy.
  destruct sy; [discriminate Hy |].
  destruct x as [sx | sx | | sx mx ex]; try destruct sx; try discriminate Hx;
    try reflexivity.
  apply has_sign_zero_or_positive.
  exact (div_has_sign (S754_finite false mx ex) false my ey eq_refl).
Qed.

Lemma zp_add x y :
  zero_or_positive x = true -> zero_or_positive y = true ->
  zero_or_positive (add x y) = true.
Proof.
  intros Hx Hy.
  destruct x as [sx | sx | | sx mx ex]; try destruct sx; try discriminate Hx;
    destruct y as [sy | sy | | sy my ey]; try destruct sy; try discriminate Hy;
    try reflexivity.
  apply has_sign_zero_or_positive.
  exact (add_has_sign (S754_finite false mx ex) (S754_finite false my ey) eq_refl eq_refl).
Qed.

Lemma zp_sqrt x :
  zero_or_positive x = true ->
  math_sqrt x = Return (sqrt x) /\ zero_or_positive (sqrt x) = true.
Proof.
  intros Hx.
  destruct x as [sx | sx | | sx mx ex]; try destruct sx; try discriminate Hx;
    try (split; reflexivity).
  split; [reflexivity |].
  destruct (sqrt_has_sign (S754_finite false mx ex) eq_refl) as [H | [s ->]];
    [now apply has_sign_zero_or_positive | reflexivity].
Qed.

Lemma zp_ceil x :
  zero_or_positive x = true ->
  (exists r, math_ceil x = Return r /\ 0 <= r)
  \/ math_ceil x = Raise (OverflowError "cannot convert float infinity to integer").
Proof.
  intros Hx.
  destruct x as [sx | sx | | sx mx ex]; try destruct sx; try discriminate Hx.
  - left. exists 0. now split.
  - left. exists 0. now split.
  - now right.
  - exact (math_ceil_has_sign (S754_finite false mx ex) eq_refl).
Qed.

(** [float(n)] of an int that is not negative is a zero or a finite number
    above zero, unless it raises its [OverflowError]. *)
Lemma of_int_nonneg n :
  0 <= n ->
  (exists x, of_int n = Return x /\ finite_nonneg x = true)
  \/ of_int n = Raise (OverflowError "int too large to convert to float").
Proof.
  intros Hn. unfold of_int.
  destruct (has_sign_cases _ _ (round_int_has_sign n Hn)) as [-> | [-> | (m & e & ->)]].
  - left. eexists. now split.
  - now right.
  - left. eexists. now split.
Qed.

(** X17. With a finite [desvio_padrao >= 0], a [dias_seguranca >= 0] and a
    finite [demanda_media_diaria > 0], [calcular_estoque_seguranca] returns
    an integer that is not negative or raises [OverflowError]: it raises
    nothing else. *)
Theorem calcular_estoque_seguranca_failure (d : float) (n : Z) (a : float) :
  finite_nonneg d = true -> 0 <= n -> finite_pos a = true ->
  (exists r, calcular_estoque_seguranca d n a = Return r /\ 0 <= r)
  \/ exists msg, calcular_estoque_seguranca d n a = Raise (OverflowError msg).
Proof.
  intros Hd Hn Ha. unfold calcular_estoque_seguranca.
  destruct (of_int_nonneg n Hn) as [(x & -> & Hx) | ->]; cbn [Py.bind]; [| eauto].
  destruct (zp_ceil (mul (mul d x) a)) as [Hr | Hr]; [| now left | right; eauto].
  apply zp_mul_pos; [| exact Ha]. now apply zp_mul_finite.
Qed.

(** X18. With a [lead_time_dias >= 0], a finite [demanda_media_diaria >= 0]
    and an [estoque_seguranca >= 0], [determinar_ponto_pedido] returns an
    integer that is not negative or raises [OverflowError]: it raises nothing
    else. *)
Theorem determinar_ponto_pedido_failure (L : Z) (D : float) (S : Z) :
  0 <= L -> finite_nonneg D = true -> 0 <= S ->
  (exists r, determinar_ponto_pedido L D S = Return r /\ 0 <= r)
  \/ exists msg, determinar_ponto_pedido L D S = Raise (OverflowError msg).
Proof.
  intros HL HD HS. unfold determinar_ponto_pedido.
  destruct (of_int_nonneg L HL) as [(x & -> & Hx) | ->]; cbn [Py.bind]; [| eauto].
  destruct (of_int_nonneg S HS) as [(y & -> & Hy) | ->]; cbn [Py.bind]; [| eauto].
  destruct (zp_ceil (add (mul x D) y)) as [Hr | Hr]; [| now left | right; eauto].
  apply zp_add; [now apply zp_mul_finite | now apply finite_nonneg_zero_or_positive].
Qed.

Lemma finite_pos_not_zero x : finite_pos x = true -> eq_zero x = false.
Proof. destruct x as [s | s | | s m e]; try destruct s; cbn; congruence || reflexivity. Qed.

(** X19. With a finite [demanda_anual >= 0] and finite [custo_pedido > 0]
    and [custo_manutencao > 0], [calcular_lote_economico] returns an integer
    that is not negative or raises [OverflowError]: it raises nothing
    else. *)
Theorem calcular_lote_economico_failure (D c h : float) :
  finite_nonneg D = true -> finite_pos c = true -> finite_pos h = true ->
  (exists r, calcular_lote_economico D c h = Return r /\ 0 <= r)
  \/ exists msg, calcular_lote_economico D c h = Raise (OverflowError msg).
Proof.
  intros HD Hc Hh. unfold calcular_lote_economico, truediv.
  rewrite (finite_pos_not_zero h Hh), of_int_2. cbn [Py.bind].
  assert (Hq : zero_or_positive (div (mul (mul (round_int 2) D) c) h) = true).
  { apply zp_div_pos; [| exact Hh]. apply zp_mul_pos; [| exact Hc].
    apply zp_mul_finite; [reflexivity | exact HD]. }
  destruct (zp_sqrt _ Hq) as [-> Hs]. cbn [Py.bind].
  destruct (zp_ceil _ Hs) as [Hr | Hr]; [now left | right; eauto].
Qed.

(** X20. A [custo_manutencao] below zero passes the guard: with finite
    [demanda_anual > 0] and [custo_pedido > 0] the quotient is below zero or
    a zero, and [calcular_lote_economico] raises the [ValueError] of
    [math.sqrt], "math domain error", or returns 0; it never returns a lot
    size above 0. *)
Theorem calcular_lote_economico_custo_negativo (D c h : float) :
  finite_pos D = true -> finite_pos c = true -> finite_neg h = true ->
  calcular_lote_economico D c h = Raise (ValueError "math domain error")
  \/ calcular_lote_economico D c h = Return 0.
Proof.
  intros HD Hc Hh.
  destruct h as [sh | sh | | sh mh eh]; try discriminate Hh.
  destruct sh; [| discriminate Hh].
  unfold calcular_lote_economico, truediv.
  change (eq_zero (S754_finite true mh eh)) with false. rewrite of_int_2. cbn [Py.bind].
  assert (Hn : has_sign false (mul (mul (round_int 2) D) c) = true).
  { apply mul_finite_pos; [| exact Hc]. now apply mul_finite_pos. }
  pose proof (div_has_sign _ true mh eh Hn) as Hq.
  destruct (has_sign_cases _ _ Hq) as [-> | [-> | (m & e & ->)]]; cbn; auto.
Qed.

End CalculadoraFailure.

(* ===================================================================== *)
(** ** Estoque and Produto: two more round trips *)
(* ===================================================================== *)

Section RoundTrips.
Import StM EstoqueOps.


Lemma string_app_inv_head (a b c : string) : a +:+ b = a +:+ c -> b = c.
Proof. induction a as [| x a IH]; cbn; [auto |]. intros [= H]. now apply IH. Qed.

(** X22. The text of a product, [Produto.__str__], tells its stock: two
    products with one name and one category have the same text only when
    they have the same stock. *)
Theorem produto_str_tells_stock (p p' : Produto.t) :
  Produto.nome p = Produto.nome p' ->
  Produto.tipo p = Produto.tipo p' ->
  Produto.__str__ p = Produto.__str__ p' ->
  Produto.quantidade_estoque p = Produto.quantidade_estoque p'.
Proof.
  unfold Produto.__str__, PyStr.of_int. intros -> -> H.
  do 4 apply string_app_inv_head in H.
  now apply (inj pretty) in H.
Qed.

End RoundTrips.

(* ===================================================================== *)
(** ** The further facts, on the driver's scenario *)
(* ===================================================================== *)

Section MoreDemoFacts.
Import PyFloat CalculadoraCusto StM EstoqueOps Demo DemoFloat.

Lemma calcular_estoque_seguranca_domain_witness :
  returns (calcular_estoque_seguranca f0_2 7 f50) = true
  /\ is_ceiling 70 (to_Q (estoque_seguranca_float f0_2 7 f50)).
Proof.
  destruct (calcular_estoque_seguranca_domain f0_2 7 f50) as [Hr Hc].
  split; [rewrite Hr; vm_compute; reflexivity |].
  apply Hc. vm_compute. reflexivity.
Defined.

Lemma determinar_ponto_pedido_domain_witness :
  returns (determinar_ponto_pedido 5 f50 70) = true
  /\ is_ceiling 320 (to_Q (ponto_pedido_float 5 f50 70)).
Proof.
  destruct (determinar_ponto_pedido_domain 5 f50 70) as [Hr Hc].
  split; [rewrite Hr; vm_compute; reflexivity |].
  apply Hc. vm_compute. reflexivity.
Defined.

Lemma calcular_lote_economico_domain_witness :
  returns (calcular_lote_economico f18000 f150 f6) = true
  /\ 0 <= 949 /\ is_ceiling 949 (to_Q (eoq_float f18000 f150 f6)).
Proof.
  destruct (calcular_lote_economico_domain f18000 f150 f6) as [Hr Hc].
  split; [rewrite Hr; vm_compute; reflexivity |].
  apply Hc. vm_compute. reflexivity.
Defined.

Lemma calcular_lote_economico_sem_demanda_witness :
  calcular_lote_economico (S754_zero false) f150 f6 = Return 0.
Proof.
  apply calcular_lote_economico_sem_demanda;
    try (vm_compute; reflexivity). vm_compute. discriminate.
Defined.

Lemma calcular_estoque_seguranca_failure_witness :
  (exists r, calcular_estoque_seguranca f0_2 7 f50 = Return r /\ 0 <= r)
  \/ exists msg, calcular_estoque_seguranca f0_2 7 f50 = Raise (OverflowError msg).
Proof.
  apply calcular_estoque_seguranca_failure; [vm_compute; reflexivity | lia | vm_compute; reflexivity].
Defined.

Lemma determinar_ponto_pedido_failure_witness :
  (exists r, determinar_ponto_pedido 5 f50 70 = Return r /\ 0 <= r)
  \/ exists msg, determinar_ponto_pedido 5 f50 70 = Raise (OverflowError msg).
Proof.
  apply determinar_ponto_pedido_failure; [lia | vm_compute; reflexivity | lia].
Defined.

Lemma calcular_lote_economico_failure_witness :
  (exists r, calcular_lote_economico f18000 f150 f6 = Return r /\ 0 <= r)
  \/ exists msg, calcular_lote_economico f18000 f150 f6 = Raise (OverflowError msg).
Proof.
  apply calcular_lote_economico_failure; vm_compute; reflexivity.
Defined.

Lemma calcular_lote_economico_custo_negativo_witness :
  calcular_lote_economico f18000 f150 f6_neg = Raise (ValueError "math domain error")
  \/ calcular_lote_economico f18000 f150 f6_neg = Return 0.
Proof.
  apply calcular_lote_economico_custo_negativo; vm_compute; reflexivity.
Defined.

(** Both outcomes of a negative [custo_manutencao] happen. *)
Example custo_negativo_both :
  calcular_lote_economico f18000 f150 f6_neg = Raise (ValueError "math domain error")
  /\ calcular_lote_economico f_min f_min f6_neg = Return 0.
Proof. split; vm_compute; reflexivity. Qed.

(** A factor of zero last turns an overflow into a NaN: the [ValueError] of
    [math.ceil] for finite arguments that are not negative. *)
Example estoque_seguranca_nan :
  calcular_estoque_seguranca two_1023 2 (S754_zero false)
    = Raise (ValueError "cannot convert float NaN to integer").
Proof. vm_compute. reflexivity. Qed.

Lemma buscar_produto_first_match_witness :
  exists r,
    _buscar_produto "Coca-Cola 2L" estado = Some (Return r, estado)
    /\ match r with
       | Some l =>
           exists antes depois p,
             produtos (self estado) = (antes ++ l :: depois)%list
             /\ heap estado !! l = Some p /\ Produto.nome p = "Coca-Cola 2L"
             /\ forall l' p', l' ∈ antes -> heap estado !! l' = Some p' ->
                              Produto.nome p' <> "Coca-Cola 2L"
       | None => unregistered estado "Coca-Cola 2L"
       end.
Proof. exact (buscar_produto_first_match estado "Coca-Cola 2L" estado_ok). Defined.



Lemma adicionar_produto_lookup_witness :
  exists s',
    adicionar_produto 2 estado = Some (Return tt, s')
    /\ heap s' = heap estado
    /\ produtos (self s') = (produtos (self estado) ++ [2%positive])%list
    /\ estoque_nome (self s') = estoque_nome (self estado)
    /\ registry_ok s'
    /\ _buscar_produto "Coca-Cola 2L" s' = Some (Return (Some 2%positive), s').
Proof.
  assert (Hl : heap estado !! 2%positive = Some coca_cola_300) by (vm_compute; reflexivity).
  destruct (adicionar_produto_lookup estado 2 coca_cola_300 "Coca-Cola 2L" estado_ok Hl)
    as (s' & H1 & H2 & H3 & H4 & H5 & H6).
  exists s'. repeat split; auto.
Defined.

Lemma duplicado_ok : registry_ok DemoDuplicado.estado.
Proof.
  intros l Hl. cbn in Hl.
  apply elem_of_cons in Hl as [-> | Hl]; [vm_compute; eauto |].
  apply elem_of_cons in Hl as [-> | Hl]; [vm_compute; eauto |].
  inversion Hl.
Qed.

Lemma run_extends_witness :
  exists s', run DemoDuplicado.programa DemoDuplicado.estado = Some s'
             /\ extends DemoDuplicado.estado s'.
Proof.
  eexists. split; [vm_compute; reflexivity |].
  apply (run_extends DemoDuplicado.programa); [exact duplicado_ok |].
  vm_compute. reflexivity.
Defined.

Lemma run_resolution_witness :
  exists s', run DemoDuplicado.programa DemoDuplicado.estado = Some s'
             /\ _buscar_produto "Brahma Lata 350ml" s' = Some (Return (Some 1%positive), s').
Proof.
  eexists. split; [vm_compute; reflexivity |].
  apply (run_resolution DemoDuplicado.programa DemoDuplicado.estado);
    [exact duplicado_ok | vm_compute; reflexivity | vm_compute; reflexivity].
Defined.

Lemma shadowed_product_never_changes_witness :
  exists s', run DemoDuplicado.programa DemoDuplicado.estado = Some s'
             /\ heap s' !! 2%positive = Some DemoDuplicado.outra_brahma.
Proof.
  eexists. split; [vm_compute; reflexivity |].
  apply (shadowed_product_never_changes DemoDuplicado.programa DemoDuplicado.estado _
           1 2 DemoDuplicado.outra_brahma);
    [exact duplicado_ok | vm_compute; reflexivity | vm_compute; reflexivity
    | discriminate | vm_compute; reflexivity].
Defined.




Lemma verificar_alertas_output_witness :
  stdout (emit estado [linha_alerta "Brahma Lata 350ml"])
    = (stdout estado ++ [linha_alerta "Brahma Lata 350ml"])%list.
Proof.
  apply (verificar_alertas_output estado _ 600 "Brahma Lata 350ml" true estado_ok).
  vm_compute. reflexivity.
Defined.


Lemma produto_str_tells_stock_witness :
  Produto.quantidade_estoque brahma_500
    = Produto.quantidade_estoque (Produto.set_quantidade_estoque brahma (250 + 250)).
Proof.
  apply produto_str_tells_stock; reflexivity.
Defined.

End MoreDemoFacts.
